(** * run_summarization.py: fine-tuning and evaluation driver for BertAbs

    A shallow embedding of [examples/summarization/run_summarization.py]:
    the batch assembler [collate], the two-rate optimizer
    [BertSumOptimizer], [decode_summary], the training loop of [train], the
    evaluation loop of [evaluate] and the device selection of [main].

    Python integers are [Z], Python dictionaries with string keys are
    [gmap string _] (or an association list where the iteration order is
    observable), exceptions are the [Raise] case of [result].  Floating
    point arithmetic is kept abstract behind the interface [PyFloat]: every
    statement about a learning rate or a loss holds for any implementation
    of the float operations.  What is not abstract is the conversion of an
    int to a float in mixed arithmetic, which raises [OverflowError] outside
    the range of doubles. *)

From Stdlib Require Import ZArith QArith Lia Ascii String.
From stdpp Require Import base numbers option list strings gmap pretty.

Local Open Scope Z_scope.

(** ** Exceptions and fallible computations *)

(** The Python exceptions that the modelled code can raise, and the
    [EmptyBatchError] of the specification. *)
Inductive exn : Type :=
  | AttributeError
  | KeyError
  | TypeError
  | ValueError
  | ZeroDivisionError
  | OverflowError
  | IndexError
  | EmptyBatchError.

Inductive result (A : Type) : Type :=
  | OK (a : A)
  | Raise (e : exn).
Arguments OK {A} a.
Arguments Raise {A} e.

Global Instance result_ret : MRet result := fun A a => OK a.
Global Instance result_bind : MBind result := fun A B f m =>
  match m with
  | OK a => f a
  | Raise e => Raise e
  end.

(** [d[k]] on a dictionary: [KeyError] when the key is missing. *)
Definition dict_get {V} (d : gmap string V) (k : string) : result V :=
  match d !! k with
  | Some v => OK v
  | None => Raise KeyError
  end.

(** Python's [//] and [%] on integers: floor division, the remainder takes
    the sign of the divisor, and a zero divisor raises. *)
Definition py_floordiv (a b : Z) : result Z :=
  if b =? 0 then Raise ZeroDivisionError else OK (a / b).

Definition py_mod (a b : Z) : result Z :=
  if b =? 0 then Raise ZeroDivisionError else OK (a mod b).

(** ** Floating point numbers *)

Class PyFloat (F : Type) : Type := {
  float_lit : Q -> F;          (* a decimal literal such as [0.002] *)
  float_of_Z : Z -> F;         (* the float of an int in the range of floats *)
  fadd : F -> F -> F;
  fsub : F -> F -> F;
  fmul : F -> F -> F;
  fdiv : F -> F -> F;          (* division by a nonzero float or int *)
  fpow : F -> F -> F;          (* positive base *)
  fmin : F -> F -> F;          (* the builtin [min] on two floats *)
  fmean : F -> F;              (* [loss.mean()] *)
  flt : F -> F -> bool         (* [x < y] *)
}.

(** Uninterpreted float expressions: the free implementation of the
    interface, used to run the model on concrete inputs. *)
Inductive fexpr : Type :=
  | FLit (q : Q)
  | FOfZ (z : Z)
  | FAdd (a b : fexpr)
  | FSub (a b : fexpr)
  | FMul (a b : fexpr)
  | FDiv (a b : fexpr)
  | FPow (a b : fexpr)
  | FMin (a b : fexpr)
  | FMean (a : fexpr).

(** The rational value of an expression, when it has one. *)
Fixpoint fexpr_value (e : fexpr) : option Q :=
  match e with
  | FLit q => Some q
  | FOfZ z => Some (inject_Z z)
  | FAdd a b => x ← fexpr_value a; y ← fexpr_value b; Some (Qplus x y)
  | FSub a b => x ← fexpr_value a; y ← fexpr_value b; Some (Qminus x y)
  | FMul a b => x ← fexpr_value a; y ← fexpr_value b; Some (Qmult x y)
  | FMin a b =>
      x ← fexpr_value a; y ← fexpr_value b;
      Some (if Qle_bool x y then x else y)
  | FMean a => fexpr_value a
  | FDiv _ _ | FPow _ _ => None
  end.

Definition fexpr_lt (a b : fexpr) : bool :=
  match fexpr_value a, fexpr_value b with
  | Some x, Some y => negb (Qle_bool y x)
  | _, _ => false
  end.

Global Instance fexpr_float : PyFloat fexpr := {|
  float_lit := FLit; float_of_Z := FOfZ;
  fadd := FAdd; fsub := FSub; fmul := FMul; fdiv := FDiv;
  fpow := FPow; fmin := FMin; fmean := FMean; flt := fexpr_lt
|}.

(** The value of [int ** float]: a float, or a complex number when the base
    is negative and the exponent is not an integer. *)
Inductive pynum (F : Type) : Type :=
  | PyFloatV (x : F)
  | PyComplexV.
Arguments PyFloatV {F} x.
Arguments PyComplexV {F}.

Definition Q_is_integer (q : Q) : bool :=
  (Zpos (Qden (Qred q)) =? 1).

Definition Q_is_negative (q : Q) : bool := (Qnum q <? 0).

(** Python floats are IEEE 754 doubles.  An int converts to a float when,
    rounded to the nearest double, it does not exceed the largest finite
    one, [2 ** 1024 - 2 ** 971]: exactly when its magnitude is below
    [2 ** 1024 - 2 ** 970]. *)
Definition float_int_bound : Z := 2 ^ 1024 - 2 ^ 970.
Arguments float_int_bound : simpl never.

Section FloatOps.
Context {F : Type} `{PyFloat F}.

(** The conversion of the int operand of a mixed operation: outside the
    range of floats it raises [OverflowError] ("int too large to convert
    to float"). *)
Definition float_of_int (z : Z) : result F :=
  if Z.abs z <? float_int_bound then OK (float_of_Z z)
  else Raise OverflowError.

(** [b ** e] for an int [b] and a negative float literal [e], the exponents
    of the schedule: the base is converted first; the power of a float
    other than zero then has magnitude at most 1 and cannot overflow. *)
Definition py_pow (b : Z) (e : Q) : result (pynum F) :=
  x ← float_of_int b;
  if (b =? 0) && Q_is_negative e then Raise ZeroDivisionError
  else if (b <? 0) && negb (Q_is_integer e) then OK PyComplexV
  else OK (PyFloatV (fpow x (float_lit e))).

(** [n * x] for an int [n], which is converted first. *)
Definition py_int_mul (n : Z) (x : pynum F) : result (pynum F) :=
  y ← float_of_int n;
  match x with
  | PyFloatV v => OK (PyFloatV (fmul y v))
  | PyComplexV => OK PyComplexV
  end.

(** [min(a, b)]: complex numbers cannot be ordered. *)
Definition py_min (a b : pynum F) : result F :=
  match a, b with
  | PyFloatV x, PyFloatV y => OK (fmin x y)
  | _, _ => Raise TypeError
  end.

(** [x / n] for a float [x] and an int [n], which is converted first. *)
Definition py_truediv (x : F) (n : Z) : result F :=
  d ← float_of_int n;
  if n =? 0 then Raise ZeroDivisionError else OK (fdiv x d).
End FloatOps.

(** ** BertSumOptimizer *)

(** [torch.optim.Adam], reduced to what the driver observes: the learning
    rate of each parameter group, the number of updates applied, and
    whether its parameters hold accumulated gradients. *)
Record Adam (F : Type) : Type := mkAdam {
  param_groups : list F;
  updates : nat;
  has_grad : bool
}.
Arguments mkAdam {F}.
Arguments param_groups {F}.
Arguments updates {F}.
Arguments has_grad {F}.

(** An encoder or decoder stack, identified by name. *)
Record Stack : Type := mkStack { stack_name : string }.

Record Model : Type := mkModel { model_encoder : Stack; model_decoder : Stack }.

Record BertSumOptimizer (F : Type) : Type := mkBertSumOptimizer {
  encoder : Stack;
  decoder : Stack;
  lr : gmap string F;
  warmup_steps : gmap string Z;
  optimizers : list (string * Adam F);   (* dict, in insertion order *)
  _step : Z;
  current_learning_rates : gmap string F
}.
Arguments mkBertSumOptimizer {F}.
Arguments encoder {F}.
Arguments decoder {F}.
Arguments lr {F}.
Arguments warmup_steps {F}.
Arguments optimizers {F}.
Arguments _step {F}.
Arguments current_learning_rates {F}.

(** The values an attribute of a [BertSumOptimizer] can hold. *)
Inductive attr (F : Type) : Type :=
  | AStack (s : Stack)
  | ARates (d : gmap string F)
  | AWarmup (d : gmap string Z)
  | AOptimizers (d : list (string * Adam F))
  | AInt (z : Z)
  | AAdam (o : Adam F).
Arguments AStack {F}.
Arguments ARates {F}.
Arguments AWarmup {F}.
Arguments AOptimizers {F}.
Arguments AInt {F}.
Arguments AAdam {F}.

Section Optimizer.
Context {F : Type} `{PyFloat F}.

Definition Adam_init (learning_rate : F) : Adam F :=
  mkAdam [learning_rate] 0%nat false.

Definition Adam_zero_grad (o : Adam F) : Adam F :=
  mkAdam (param_groups o) (updates o) false.

Definition Adam_step (o : Adam F) : Adam F :=
  mkAdam (param_groups o) (S (updates o)) (has_grad o).

(** [for param_group in optimizer.param_groups: param_group["lr"] = r] *)
Definition Adam_set_lr (r : F) (o : Adam F) : Adam F :=
  mkAdam (map (fun _ => r) (param_groups o)) (updates o) (has_grad o).

(** [__init__]: [beta_1], [beta_2] and [eps] are forwarded to Adam
    unchanged and are not observed afterwards. *)
Definition __init__ (model : Model) (lr0 : gmap string F)
    (warmup0 : gmap string Z) : result (BertSumOptimizer F) :=
  lr_enc ← dict_get lr0 "encoder";
  lr_dec ← dict_get lr0 "decoder";
  OK {| encoder := model_encoder model;
        decoder := model_decoder model;
        lr := lr0;
        warmup_steps := warmup0;
        optimizers := [("encoder"%string, Adam_init lr_enc);
                       ("decoder"%string, Adam_init lr_dec)];
        _step := 0;
        current_learning_rates := ∅ |}.

(** The instance dictionary: one entry per [self.x = ...] of [__init__]. *)
Definition instance_dict (self : BertSumOptimizer F) : gmap string (attr F) :=
  list_to_map
    [("encoder"%string, AStack (encoder self));
     ("decoder"%string, AStack (decoder self));
     ("lr"%string, ARates (lr self));
     ("warmup_steps"%string, AWarmup (warmup_steps self));
     ("optimizers"%string, AOptimizers (optimizers self));
     ("_step"%string, AInt (_step self));
     ("current_learning_rates"%string, ARates (current_learning_rates self))].

(** [self.name]; the class itself only defines methods. *)
Definition getattr (self : BertSumOptimizer F) (name : string)
    : result (attr F) :=
  match instance_dict self !! name with
  | Some a => OK a
  | None => Raise AttributeError
  end.

(** [o.zero_grad()] on an attribute value. *)
Definition call_zero_grad (a : attr F) : result (Adam F) :=
  match a with
  | AAdam o => OK (Adam_zero_grad o)
  | _ => Raise AttributeError
  end.

(** [zero_grad]: returns the two optimizers it cleared. *)
Definition zero_grad (self : BertSumOptimizer F) : result (Adam F * Adam F) :=
  od ← getattr self "optimizer_decoder" ≫= call_zero_grad;
  oe ← getattr self "optimizer_encoder" ≫= call_zero_grad;
  OK (od, oe).

Definition _update_rate (self : BertSumOptimizer F) (stack : string)
    : result F :=
  base ← dict_get (lr self) stack;
  a ← py_pow (_step self) (-5 # 10);
  w ← dict_get (warmup_steps self) stack;
  b ← py_pow w (-15 # 10);
  c ← py_int_mul (_step self) b;
  m ← py_min a c;
  OK (fmul base m).

(** The body of [for stack, optimizer in self.optimizers.items()]:
    [done] holds the entries already visited, [rates] is
    [self.current_learning_rates]. *)
Fixpoint step_loop (self : BertSumOptimizer F)
    (todo done : list (string * Adam F)) (rates : gmap string F)
    : result (list (string * Adam F) * gmap string F) :=
  match todo with
  | [] => OK (done, rates)
  | (stack, optimizer) :: rest =>
      new_rate ← _update_rate self stack;
      let optimizer' := Adam_step (Adam_set_lr new_rate optimizer) in
      step_loop self rest (done ++ [(stack, optimizer')])
                (<[stack := new_rate]> rates)
  end.

Definition incr_step (self : BertSumOptimizer F) : BertSumOptimizer F :=
  {| encoder := encoder self; decoder := decoder self; lr := lr self;
     warmup_steps := warmup_steps self; optimizers := optimizers self;
     _step := _step self + 1;
     current_learning_rates := current_learning_rates self |}.

Definition step (self : BertSumOptimizer F) : result (BertSumOptimizer F) :=
  let self1 := incr_step self in
  '(opts, rates) ← step_loop self1 (optimizers self1) []
                             (current_learning_rates self1);
  OK {| encoder := encoder self1; decoder := decoder self1; lr := lr self1;
        warmup_steps := warmup_steps self1; optimizers := opts;
        _step := _step self1;
        current_learning_rates := rates |}.

(** [n] successive calls of [step]. *)
Fixpoint steps (n : nat) (self : BertSumOptimizer F)
    : result (BertSumOptimizer F) :=
  match n with
  | O => OK self
  | S k => self' ← step self; steps k self'
  end.

(** The schedule of the paper at counter [n]. *)
Definition schedule (base : F) (w n : Z) : F :=
  fmul base (fmin (fpow (float_of_Z n) (float_lit (-5 # 10)))
                  (fmul (float_of_Z n)
                        (fpow (float_of_Z w) (float_lit (-15 # 10))))).
End Optimizer.

(** ** Batch assembler *)

(** A dataset item: the raw story text and the raw summary text. *)
Definition Example : Type := string * string.

(** A two-dimensional integer tensor, as its list of rows. *)
Definition tensor : Type := list (list Z).

Record Tokenizer : Type := mkTokenizer {
  pad_token_id : Z;
  cls_token_id : Z;
  sep_token_id : Z;
  encode : string -> list Z;
  decode : list Z -> string
}.

Record Batch : Type := mkBatch {
  stories : tensor;
  summaries : tensor;
  encoder_token_type_ids : tensor;
  encoder_mask : tensor;
  decoder_mask : tensor;
  lm_labels : tensor
}.

(** [torch.tensor(rows)]: the rows must all have the same length. *)
Definition torch_tensor (rows : list (list Z)) : result tensor :=
  match rows with
  | [] => OK []
  | r :: rest =>
      if forallb (fun r' => Nat.eqb (length r') (length r)) rest
      then OK rows else Raise ValueError
  end.

(** Modelled from the spec: [utils_summarization.encode_for_summarization]
    is not part of the sources at hand; it encodes each side of the pair
    into token ids with the tokenizer. *)
Definition encode_for_summarization (story summary : string)
    (tokenizer : Tokenizer) : list Z * list Z :=
  (encode tokenizer story, encode tokenizer summary).

(** Modelled from the spec: [utils_summarization.fit_to_block_size]
    truncates or pads a sequence to exactly [block_size] tokens with the pad
    id. *)
Definition fit_to_block_size (sequence : list Z) (block_size : nat)
    (pad : Z) : list Z :=
  if (block_size <? length sequence)%nat then take block_size sequence
  else sequence ++ replicate (block_size - length sequence)%nat pad.

(** Modelled from the spec: [utils_summarization.build_mask] is 1 where the
    token is not the pad id and 0 elsewhere. *)
Definition build_mask (sequence : tensor) (pad : Z) : tensor :=
  map (map (fun t => if t =? pad then 0 else 1)) sequence.

(** Modelled from the spec: [utils_summarization.build_lm_labels] copies the
    target and replaces the pad positions by the ignore sentinel -1. *)
Definition build_lm_labels (sequence : tensor) (pad : Z) : tensor :=
  map (map (fun t => if t =? pad then -1 else t)) sequence.

(** Segment of each position of a row: 0 up to and including the first
    separator, 1 after it. *)
Fixpoint segment_ids (seen : bool) (separator : Z) (row : list Z) : list Z :=
  match row with
  | [] => []
  | t :: rest =>
      (if seen then 1 else 0)
        :: segment_ids (seen || (t =? separator)) separator rest
  end.

(** Modelled from the spec: [utils_summarization.compute_token_type_ids]
    tells, row by row, which of two segments a position belongs to, from the
    position of the first separator token. *)
Definition compute_token_type_ids (batch : tensor) (separator : Z) : tensor :=
  map (segment_ids false separator) batch.

(** The predicate of the [filter] call: neither side has length zero. *)
Definition keep_example (x : Example) : bool :=
  negb ((String.length (fst x) =? 0)%nat || (String.length (snd x) =? 0)%nat).

Definition collate (data : list Example) (tokenizer : Tokenizer)
    (block_size : nat) : result Batch :=
  let data1 := List.filter keep_example data in
  let data2 :=
    map (fun x => encode_for_summarization (fst x) (snd x) tokenizer) data1 in
  let data3 :=
    map (fun x =>
           (fit_to_block_size (fst x) block_size (pad_token_id tokenizer),
            fit_to_block_size (snd x) block_size (pad_token_id tokenizer)))
        data2 in
  stories ← torch_tensor (map fst data3);
  summaries ← torch_tensor (map snd data3);
  let encoder_token_type_ids :=
    compute_token_type_ids stories (cls_token_id tokenizer) in
  let encoder_mask := build_mask stories (pad_token_id tokenizer) in
  let decoder_mask := build_mask summaries (pad_token_id tokenizer) in
  let lm_labels := build_lm_labels summaries (pad_token_id tokenizer) in
  OK (mkBatch stories summaries encoder_token_type_ids encoder_mask
              decoder_mask lm_labels).

(** The six tensors of a batch, in the order of the returned tuple. *)
Definition batch_tensors (b : Batch) : list tensor :=
  [stories b; summaries b; encoder_token_type_ids b; encoder_mask b;
   decoder_mask b; lm_labels b].

(** A pair is empty after tokenization when one of its encoded sides has no
    token. *)
Definition empty_after_tokenization (tokenizer : Tokenizer) (x : Example)
    : bool :=
  let '(story, summary) :=
    encode_for_summarization (fst x) (snd x) tokenizer in
  (length story =? 0)%nat || (length summary =? 0)%nat.

(** A pair is empty as raw text when one of its sides is the empty string. *)
Definition empty_raw (x : Example) : bool := negb (keep_example x).

(** ** decode_summary *)

Definition dot : ascii := "."%char.
Definition newline : string := String "010"%char EmptyString.

(** [s.split(sep)] for a separator of one character. *)
Fixpoint split (sep : ascii) (s : string) : list string :=
  match s with
  | EmptyString => [EmptyString]
  | String c rest =>
      if Ascii.eqb c sep then EmptyString :: split sep rest
      else match split sep rest with
           | [] => [String c EmptyString]
           | first :: others => String c first :: others
           end
  end.

(** [sep.join(l)] *)
Definition join (sep : string) (l : list string) : string :=
  String.concat sep l.

(** [s.endswith(suffix)]: [s] is [suffix], or its tail ends with [suffix]. *)
Fixpoint endswith (s suffix : string) : bool :=
  String.eqb s suffix
  || match s with
     | EmptyString => false
     | String _ rest => endswith rest suffix
     end.

Definition decode_summary (summary_tokens : list Z) (tokenizer : Tokenizer)
    : list string :=
  let summary := decode tokenizer summary_tokens in
  let sentences := split dot summary in
  map (fun s => (s ++ ".")%string) sentences.

(** What [evaluate] writes into the file of one summary. *)
Definition summary_file_content (summary_tokens : list Z)
    (tokenizer : Tokenizer) : string :=
  join newline (decode_summary summary_tokens tokenizer).

(** The lines of a text file. *)
Definition lines (content : string) : list string :=
  split "010"%char content.

(** ** Command line arguments and the data loader *)

Record Args : Type := mkArgs {
  max_steps : Z;
  gradient_accumulation_steps : Z;
  num_train_epochs : Z;
  per_gpu_train_batch_size : Z;
  per_gpu_eval_batch_size : Z;
  n_gpu : Z;
  logging_steps : Z;
  is_monitoring_process : bool;
  is_distributed : bool;
  evaluate_during_training : bool
}.

(** [len(dataloader)]: the number of batches of a loader that keeps the
    last, possibly shorter, batch. *)
Definition DataLoader_len (n : nat) (batch_size : Z) : Z :=
  (Z.of_nat n + batch_size - 1) / batch_size.

(** [DataLoader(dataset, batch_size=..., num_workers=...)] rejects a batch
    size that is not positive and a negative number of workers. *)
Definition DataLoader_init (n : nat) (batch_size num_workers : Z) : result Z :=
  if batch_size <=? 0 then Raise ValueError
  else if num_workers <? 0 then Raise ValueError
  else OK (DataLoader_len n batch_size).

(** [RandomSampler(dataset)] rejects a dataset without any example. *)
Definition RandomSampler_init (n : nat) : result unit :=
  if (n =? 0)%nat then Raise ValueError else OK tt.

(** The batches of a sequential loader: consecutive slices of the dataset. *)
Definition batches {A} (batch_size : Z) (dataset : list A) : list (list A) :=
  let bs := Z.to_nat batch_size in
  map (fun j => take bs (drop (j * bs)%nat dataset))
      (seq 0 (Z.to_nat (DataLoader_len (length dataset) batch_size))).

(** ** Training loop *)

Inductive event : Type :=
  | EvBatch (epoch step : nat)            (* forward and backward pass *)
  | EvOptimizerStep (global_step : Z)     (* [optimizer.step()], new counter *)
  | EvLog (global_step : Z).              (* monitoring signals emitted *)

Record TrainState (F : Type) : Type := mkTrainState {
  optimizer : BertSumOptimizer F;
  global_step : Z;
  tr_loss : F;
  logging_loss : F;
  trace : list event
}.
Arguments mkTrainState {F}.
Arguments optimizer {F}.
Arguments global_step {F}.
Arguments tr_loss {F}.
Arguments logging_loss {F}.
Arguments trace {F}.

Section Train.
Context {F : Type} `{PyFloat F}.

(** The loss [outputs[0]] of the model on the batch drawn at a given
    epoch and step. *)
Variable forward_loss : nat -> nat -> F.
Variable model : Model.

Definition learning_rates : gmap string F :=
  {[ "encoder"%string := float_lit (2 # 1000);
     "decoder"%string := float_lit (1 # 10) ]}.

Definition train_warmup_steps : gmap string Z :=
  {[ "encoder"%string := 20000; "decoder"%string := 10000 ]}.

(** The training schedule: total steps and number of epochs. *)
Definition train_schedule (args : Args) (len_dataloader : Z)
    : result (Z * Z) :=
  if max_steps args >? 0 then
    let t_total := max_steps args in
    q ← py_floordiv len_dataloader (gradient_accumulation_steps args);
    epochs ← py_floordiv t_total (q + 1);
    OK (t_total, epochs)
  else
    q ← py_floordiv len_dataloader (gradient_accumulation_steps args);
    OK (q * num_train_epochs args, num_train_epochs args).

(** The monitoring block that follows an optimizer step.  The sample summary
    of [evaluate_during_training] and the writes to the monitoring sink are
    taken to return; they change neither the counter nor the optimizer. *)
Definition monitoring (args : Args) (st : TrainState F)
    : result (TrainState F) :=
  if is_monitoring_process args && (logging_steps args >? 0) then
    r ← py_mod (global_step st) (logging_steps args);
    if r =? 0 then
      _ ← dict_get (current_learning_rates (optimizer st)) "encoder";
      _ ← dict_get (current_learning_rates (optimizer st)) "decoder";
      OK (mkTrainState (optimizer st) (global_step st) (tr_loss st)
                       (tr_loss st) (trace st ++ [EvLog (global_step st)]))
    else OK st
  else OK st.

(** One iteration of the loop over the batches of an epoch, up to the
    early-stop test; [step_no] is the loop variable [step].  The forward and
    backward passes of the model and the operations of [torch] on the loss
    tensor are taken to return. *)
Definition batch_body (args : Args) (epoch step_no : nat) (st : TrainState F)
    : result (TrainState F) :=
  let loss0 := forward_loss epoch step_no in
  let loss1 := if n_gpu args >? 1 then fmean loss0 else loss0 in
  let loss2 :=
    if gradient_accumulation_steps args >? 1
    then fdiv loss1 (float_of_Z (gradient_accumulation_steps args))
    else loss1 in
  let st1 := mkTrainState (optimizer st) (global_step st)
               (fadd (tr_loss st) loss2) (logging_loss st)
               (trace st ++ [EvBatch epoch step_no]) in
  r ← py_mod (Z.of_nat step_no + 1) (gradient_accumulation_steps args);
  if r =? 0 then
    optimizer' ← step (optimizer st1);
    let st2 := mkTrainState optimizer' (global_step st1 + 1) (tr_loss st1)
                 (logging_loss st1)
                 (trace st1 ++ [EvOptimizerStep (global_step st1 + 1)]) in
    monitoring args st2
  else OK st1.

(** [args.max_steps > 0 and global_step > args.max_steps] *)
Definition stop (args : Args) (st : TrainState F) : bool :=
  (max_steps args >? 0) && (global_step st >? max_steps args).

(** [for step, batch in enumerate(epoch_iterator)] *)
Fixpoint inner_loop (args : Args) (epoch : nat) (todo : list nat)
    (st : TrainState F) : result (TrainState F) :=
  match todo with
  | [] => OK st
  | step_no :: rest =>
      st' ← batch_body args epoch step_no st;
      if stop args st' then OK st' else inner_loop args epoch rest st'
  end.

(** [for _ in train_iterator] *)
Fixpoint epoch_loop (args : Args) (len_dataloader : nat) (todo : list nat)
    (st : TrainState F) : result (TrainState F) :=
  match todo with
  | [] => OK st
  | epoch :: rest =>
      st' ← inner_loop args epoch (seq 0 len_dataloader) st;
      if stop args st' then OK st' else epoch_loop args len_dataloader rest st'
  end.

(** The state in which the loops are entered. *)
Definition initial_train_state (optimizer : BertSumOptimizer F)
    : TrainState F :=
  mkTrainState optimizer 0 (float_lit 0) (float_lit 0) [].

(** [train], up to the end of the two loops. *)
Definition train_loops (args : Args) (train_dataset : list Example)
    : result (TrainState F) :=
  let train_batch_size :=
    per_gpu_train_batch_size args * Z.max 1 (n_gpu args) in
  _ ← RandomSampler_init (length train_dataset);
  len_dataloader ← DataLoader_init (length train_dataset) train_batch_size 0;
  '(t_total, epochs) ← train_schedule args len_dataloader;
  optimizer ← __init__ model learning_rates train_warmup_steps;
  epoch_loop args (Z.to_nat len_dataloader) (seq 0 (Z.to_nat epochs))
    (initial_train_state optimizer).

(** [train]: the pair [(global_step, tr_loss / global_step)]. *)
Definition train (args : Args) (train_dataset : list Example)
    : result (Z * F) :=
  st ← train_loops args train_dataset;
  average ← py_truediv (tr_loss st) (global_step st);
  OK (global_step st, average).

(** The number of [optimizer.step()] invocations recorded in a trace. *)
Definition optimizer_steps (tr : list event) : nat :=
  length (List.filter
            (fun e => match e with EvOptimizerStep _ => true | _ => false end)
            tr).

(** Work done on the model: a batch processed or an optimizer step. *)
Definition is_work (e : event) : bool :=
  match e with
  | EvBatch _ _ | EvOptimizerStep _ => true
  | EvLog _ => false
  end.
End Train.

(** ** Evaluation *)

(** The output of the beam search: for each example of the batch, the
    scores of its beams and the token sequences they predict. *)
Record BeamResults (F : Type) : Type := mkBeamResults {
  scores : list (list F);
  predictions : list (list (list Z))
}.
Arguments mkBeamResults {F}.
Arguments scores {F}.
Arguments predictions {F}.

(** [l[i]] on a list. *)
Definition list_get {A} (l : list A) (i : nat) : result A :=
  match l !! i with
  | Some x => OK x
  | None => Raise IndexError
  end.

(** [os.path.join(a, b)] on POSIX paths. *)
Definition startswith_slash (s : string) : bool :=
  match s with
  | String c _ => Ascii.eqb c "/"%char
  | EmptyString => false
  end.

Definition os_path_join (a b : string) : string :=
  if startswith_slash b then b
  else if String.eqb a "" || endswith a "/" then (a ++ b)%string
  else (a ++ "/" ++ b)%string.

(** ["model_{}.txt".format(idx)] *)
Definition summary_file_name (idx : Z) : string :=
  ("model_" ++ pretty idx ++ ".txt")%string.

Record EvalState : Type := mkEvalState {
  idx_summary : Z;
  files : gmap string string      (* the file system: path to content *)
}.

Section Evaluate.
Context {F : Type} `{PyFloat F}.

(** The call [beam(source, **model_kwargs)] of a [BeamSearch] built for
    the model under evaluation. *)
Variable beam : tensor -> tensor -> tensor -> BeamResults F.

(** [max(enumerate(l), key=lambda x: x[1])[0]]: the first index that
    holds the largest score. *)
Fixpoint argmax_from (best_i : nat) (best : F) (i : nat) (l : list F) : nat :=
  match l with
  | [] => best_i
  | x :: rest =>
      if flt best x then argmax_from i x (S i) rest
      else argmax_from best_i best (S i) rest
  end.

Definition argmax (l : list F) : result nat :=
  match l with
  | [] => Raise ValueError
  | x :: rest => OK (argmax_from 0 x 1 rest)
  end.

Definition summarize (source encoder_token_type_ids encoder_mask : tensor)
    : result (list (list Z)) :=
  let batch_size := length source in
  let results := beam source encoder_token_type_ids encoder_mask in
  best_predictions_idx ←
    mapM (fun i => s ← list_get (scores results) i; argmax s)
         (seq 0 batch_size);
  mapM (fun bi => p ← list_get (predictions results) (fst bi);
                  list_get p (snd bi))
       (zip (seq 0 batch_size) best_predictions_idx).

(** The body of [for summary_tokens in summaries_tokens]. *)
Definition write_summary (tokenizer : Tokenizer) (path_to_summaries : string)
    (st : EvalState) (summary_tokens : list Z) : EvalState :=
  let path :=
    os_path_join path_to_summaries (summary_file_name (idx_summary st)) in
  mkEvalState (idx_summary st + 1)
    (<[path := summary_file_content summary_tokens tokenizer]> (files st)).

(** [for batch in eval_dataloader]: each batch is collated when it is
    fetched. *)
Fixpoint eval_loop (tokenizer : Tokenizer) (path_to_summaries : string)
    (todo : list (list Example)) (st : EvalState) : result EvalState :=
  match todo with
  | [] => OK st
  | data :: rest =>
      batch ← collate data tokenizer 512;
      summaries_tokens ←
        summarize (stories batch) (encoder_token_type_ids batch)
                  (encoder_mask batch);
      eval_loop tokenizer path_to_summaries rest
        (fold_left (write_summary tokenizer path_to_summaries)
                   summaries_tokens st)
  end.

(** [evaluate]: [CPU_COUNT] is the size of the CPU affinity mask of the
    process, [fs] the file system before the call. *)
Definition evaluate (args : Args) (tokenizer : Tokenizer)
    (path_to_summaries : string) (CPU_COUNT : Z)
    (eval_dataset : list Example) (fs : gmap string string)
    : result EvalState :=
  let eval_batch_size :=
    per_gpu_eval_batch_size args * Z.max 1 (n_gpu args) in
  _ ← DataLoader_init (length eval_dataset) eval_batch_size (CPU_COUNT - 2);
  eval_loop tokenizer path_to_summaries
    (batches eval_batch_size eval_dataset) (mkEvalState 0 fs).
End Evaluate.

(** ** Device selection in [main] *)

Inductive Device : Type :=
  | CpuDevice
  | CudaDevice (index : option Z).

(** What the process can learn from [torch.cuda]. *)
Record Torch : Type := mkTorch {
  cuda_available : bool;      (* the result of [torch.cuda.is_available()] *)
  cuda_device_count : Z       (* the result of [torch.cuda.device_count()] *)
}.

(** The operand of a boolean test: a boolean, or a function object. *)
Inductive pyobject : Type :=
  | PyBoolObj (b : bool)
  | PyFunctionObj (name : string).

(** Truth value testing: a function object is always true. *)
Definition truth (o : pyobject) : bool :=
  match o with
  | PyBoolObj b => b
  | PyFunctionObj _ => true
  end.

(** The expression [torch.cuda.is_available], without a call. *)
Definition torch_cuda_is_available : pyobject :=
  PyFunctionObj "torch.cuda.is_available".

(** The device and the GPU count chosen by [main]. *)
Definition setup_device (to_cpu : bool) (local_rank : Z) (torch : Torch)
    : Device * Z :=
  let is_distributed := negb (local_rank =? -1) in
  if to_cpu || negb (truth torch_cuda_is_available) then (CpuDevice, 0)
  else if negb is_distributed then (CudaDevice None, cuda_device_count torch)
  else (CudaDevice (Some local_rank), 1).

(** What the specification asks of the device selection. *)
Definition setup_device_spec (to_cpu : bool) (local_rank : Z) (torch : Torch)
    : Device * Z :=
  let is_distributed := negb (local_rank =? -1) in
  if to_cpu || negb (cuda_available torch) then (CpuDevice, 0)
  else if negb is_distributed then (CudaDevice None, cuda_device_count torch)
  else (CudaDevice (Some local_rank), 1).

(** * Auxiliary definitions *)

(** ** Optimizer: groups, schedule and sample inputs *)

(** The two parameter groups. *)
Definition groups : list string := ["encoder"%string; "decoder"%string].

(** The state of a two-group optimizer whose schedule is defined: both
    warm-up lengths are positive and in the range of floats. *)
Record schedulable {F : Type} (lr0 : gmap string F) (warmup0 : gmap string Z)
    (be bd : F) (we wd : Z) (self : BertSumOptimizer F) : Prop := {
  sch_lr : lr self = lr0;
  sch_warmup : warmup_steps self = warmup0;
  sch_keys : map fst (optimizers self) = groups;
  sch_be : lr0 !! "encoder"%string = Some be;
  sch_bd : lr0 !! "decoder"%string = Some bd;
  sch_we : warmup0 !! "encoder"%string = Some we;
  sch_wd : warmup0 !! "decoder"%string = Some wd;
  sch_we_pos : 0 < we;
  sch_wd_pos : 0 < wd;
  sch_we_fits : we < float_int_bound;
  sch_wd_fits : wd < float_int_bound;
  sch_step : 0 <= _step self
}.

(** The learning rates and warm-up lengths used by [train], and a variant
    whose encoder warm-up length is zero. *)
Definition paper_rates : gmap string fexpr :=
  {[ "encoder"%string := FLit (2 # 1000); "decoder"%string := FLit (1 # 10) ]}.
Definition paper_warmup : gmap string Z :=
  {[ "encoder"%string := 20000; "decoder"%string := 10000 ]}.
Definition bert_abs : Model := mkModel (mkStack "encoder") (mkStack "decoder").

(** The optimizer that [__init__] builds from the sample learning rates and
    a given table of warm-up lengths. *)
Definition sample_optimizer (warmup0 : gmap string Z) : BertSumOptimizer fexpr :=
  mkBertSumOptimizer (mkStack "encoder") (mkStack "decoder")
    paper_rates warmup0
    [("encoder"%string, mkAdam [FLit (2 # 1000)] 0%nat false);
     ("decoder"%string, mkAdam [FLit (1 # 10)] 0%nat false)]
    0 ∅.

(** ** Batch assembler and decoding: sample tokenizer and rows *)

(** A character-level tokenizer: one token per character other than the
    space, no special token added. *)
Definition sample_encode (s : string) : list Z :=
  map (fun c => Z.of_nat (nat_of_ascii c))
      (List.filter (fun c => negb (Ascii.eqb c " "%char))
                   (list_ascii_of_string s)).

Definition sample_decode (tokens : list Z) : string :=
  string_of_list_ascii (map (fun t => ascii_of_nat (Z.to_nat t)) tokens).

Definition sample_tokenizer : Tokenizer :=
  mkTokenizer 0 1 2 sample_encode sample_decode.

(** The batch without any row. *)
Definition empty_batch : Batch := mkBatch [] [] [] [] [] [].

(** The row that [collate] builds from one side of a pair. *)
Definition encoded_row (tokenizer : Tokenizer) (block_size : nat)
    (text : string) : list Z :=
  fit_to_block_size (encode tokenizer text) block_size
                    (pad_token_id tokenizer).

(** A character occurs in a string. *)
Fixpoint occurs (c : ascii) (s : string) : bool :=
  match s with
  | EmptyString => false
  | String d rest => Ascii.eqb d c || occurs c rest
  end.

(** ** Training: trace predicates, invariant and sample runs *)

(** The batch size that [train] hands to its data loader. *)
Definition train_batch_size (args : Args) : Z :=
  per_gpu_train_batch_size args * Z.max 1 (n_gpu args).

(** Every optimizer step recorded in a trace left the counter at most at
    [bound]. *)
Definition all_below (bound : Z) (tr : list event) : bool :=
  forallb (fun e => match e with
                    | EvOptimizerStep g => g <=? bound
                    | _ => true
                    end) tr.

(** No batch is processed and no optimizer step is taken after the first
    optimizer step that leaves the counter above [bound]. *)
Fixpoint quiet_after (bound : Z) (tr : list event) : bool :=
  match tr with
  | [] => true
  | EvOptimizerStep g :: rest =>
      if bound <? g then forallb (fun e => negb (is_work e)) rest
      else quiet_after bound rest
  | _ :: rest => quiet_after bound rest
  end.

(** The optimizer that [train] constructs. *)
Definition train_optimizer {F : Type} `{PyFloat F} (model : Model)
    : BertSumOptimizer F :=
  mkBertSumOptimizer (model_encoder model) (model_decoder model)
    learning_rates train_warmup_steps
    [("encoder"%string, Adam_init (float_lit (2 # 1000)));
     ("decoder"%string, Adam_init (float_lit (1 # 10)))]
    0 ∅.

(** What the two loops of [train] maintain: the optimizer keeps the
    schedule of [train] and counts the global steps, the recorded optimizer
    steps never exceed the counter, the trace is quiet after the counter
    passed [bound], and the counter passes [bound] by one at most. *)
Definition train_invariant {F : Type} `{PyFloat F} (bound : Z)
    (st : TrainState F) : Prop :=
  schedulable learning_rates train_warmup_steps
    (float_lit (2 # 1000)) (float_lit (1 # 10)) 20000 10000 (optimizer st) /\
  _step (optimizer st) = global_step st /\
  all_below (global_step st) (trace st) = true /\
  quiet_after bound (trace st) = true /\
  global_step st <= bound + 1.

(** A run with [--max_steps 5 --gradient_accumulation_steps 2] and a batch
    size of 2, and a dataset of twenty examples. *)
Definition sample_args (epochs : Z) : Args :=
  mkArgs 5 2 epochs 2 4 1 50 true false false.

Definition sample_dataset : list Example :=
  replicate 20 ("a story."%string, "a summary."%string).

Definition sample_loss : nat -> nat -> fexpr := fun _ _ => FLit 1.

(** A run capped at one step, without gradient accumulation. *)
Definition capped_args : Args := mkArgs 1 1 10 2 4 1 50 true false false.

(** ** Evaluation: positions, files and sample run *)

(** The batch size that [evaluate] hands to its data loader. *)
Definition eval_batch_size (args : Args) : Z :=
  per_gpu_eval_batch_size args * Z.max 1 (n_gpu args).

(** The number of examples before position [p] that the batch assembler
    keeps. *)
Definition kept_before (dataset : list Example) (p : nat) : nat :=
  length (List.filter keep_example (take p dataset)).

(** The path of the [k]-th summary file. *)
Definition summary_path (path_to_summaries : string) (k : nat) : string :=
  os_path_join path_to_summaries (summary_file_name (Z.of_nat k)).

(** The interface of the beam search: one non-empty list of scores per row
    of the source, and one prediction per score. *)
Definition beam_well_formed {F : Type}
    (beam : tensor -> tensor -> tensor -> BeamResults F) : Prop :=
  forall source token_type_ids mask,
    let results := beam source token_type_ids mask in
    length (scores results) = length source /\
    Forall2 (fun s p => s <> [] /\ length p = length s)
            (scores results) (predictions results).

Section SummaryOfPosition.
Context {F : Type} `{PyFloat F}.
Variable beam : tensor -> tensor -> tensor -> BeamResults F.

(** The summaries of one batch of the loader. *)
Definition batch_summaries (tokenizer : Tokenizer) (data : list Example)
    : result (list (list Z)) :=
  batch ← collate data tokenizer 512;
  summarize beam (stories batch) (encoder_token_type_ids batch)
            (encoder_mask batch).

(** The summary of the example at position [p] of the dataset: the row of
    its batch that was built from it. *)
Definition summary_of_position (tokenizer : Tokenizer) (batch_size : Z)
    (dataset : list Example) (p : nat) : result (list Z) :=
  let bs := Z.to_nat batch_size in
  let data := take bs (drop (p / bs * bs)%nat dataset) in
  summaries_tokens ← batch_summaries tokenizer data;
  list_get summaries_tokens (kept_before data (p mod bs)%nat).
End SummaryOfPosition.

Section SummariesOf.
Context {F : Type} `{PyFloat F}.
Variable beam : tensor -> tensor -> tensor -> BeamResults F.

(** The summaries of a batch, or none when they cannot be computed. *)
Definition summaries_of (tokenizer : Tokenizer) (data : list Example)
    : list (list Z) :=
  match batch_summaries beam tokenizer data with
  | OK summaries_tokens => summaries_tokens
  | Raise _ => []
  end.
End SummariesOf.

(** A beam search with a single beam that predicts the source row. *)
Definition sample_beam (source token_type_ids mask : tensor)
    : BeamResults fexpr :=
  mkBeamResults (map (fun _ => [FLit 0]) source) (map (fun row => [row]) source).

(** A beam search with a single beam that predicts the tokens of ["a."]
    for every row. *)
Definition period_beam (source token_type_ids mask : tensor)
    : BeamResults fexpr :=
  mkBeamResults (map (fun _ => [FLit 0]) source)
                (map (fun _ => [[97; 46]]) source).

Definition sample_eval_args : Args := mkArgs 0 1 1 2 2 1 50 true false false.

Definition sample_eval_dataset : list Example :=
  [("a."%string, "x"%string); (""%string, "y"%string);
   ("b."%string, "z"%string)].

(** * Further definitions *)

(** ** Optimizer: life cycle *)




(** The shape that [__init__] gives an optimizer and that [step] keeps:
    both optimizers 2-tuples in the order encoder, decoder, each with a
    single parameter group, and applied [n] times. *)
Record in_lockstep {F : Type} (model : Model) (lr0 : gmap string F)
    (warmup0 : gmap string Z) (n : nat) (self : BertSumOptimizer F) : Prop := {
  ls_encoder : encoder self = model_encoder model;
  ls_decoder : decoder self = model_decoder model;
  ls_lr : lr self = lr0;
  ls_warmup : warmup_steps self = warmup0;
  ls_step : _step self = Z.of_nat n;
  ls_optimizers :
    exists oe od re rd,
      optimizers self = [("encoder"%string, oe); ("decoder"%string, od)] /\
      updates oe = n /\ updates od = n /\
      param_groups oe = [re] /\ param_groups od = [rd] /\
      match n with
      | O => lr0 !! "encoder"%string = Some re /\
             lr0 !! "decoder"%string = Some rd /\
             current_learning_rates self = ∅
      | S _ => current_learning_rates self !! "encoder"%string = Some re /\
               current_learning_rates self !! "decoder"%string = Some rd
      end
}.

(** ** Decoding and batches *)

(** The number of occurrences of a character in a string. *)
Fixpoint count_char (c : ascii) (s : string) : nat :=
  match s with
  | EmptyString => 0%nat
  | String d rest => ((if Ascii.eqb d c then 1 else 0) + count_char c rest)%nat
  end.

(** Two batches put one after the other, tensor by tensor. *)
Definition batch_app (b1 b2 : Batch) : Batch :=
  mkBatch (stories b1 ++ stories b2) (summaries b1 ++ summaries b2)
    (encoder_token_type_ids b1 ++ encoder_token_type_ids b2)
    (encoder_mask b1 ++ encoder_mask b2)
    (decoder_mask b1 ++ decoder_mask b2)
    (lm_labels b1 ++ lm_labels b2).

(** ** Training: counting *)

(** The number of batches processed in a trace. *)
Definition batches_processed (tr : list event) : nat :=
  length (List.filter
            (fun e => match e with EvBatch _ _ => true | _ => false end) tr).

(** The number of steps of an epoch that close an accumulation window. *)
Definition window_ends (accumulation : Z) (todo : list nat) : nat :=
  length (List.filter (fun s => (Z.of_nat s + 1) mod accumulation =? 0) todo).

(** The three counters of a run agree: the global step, the counter of the
    optimizer and the number of optimizer steps taken. *)
Definition counters_agree {F : Type} (st : TrainState F) : Prop :=
  global_step st = _step (optimizer st) /\
  Z.of_nat (optimizer_steps (trace st)) = global_step st.

(** A run capped at thirty steps, with three batches per optimizer step. *)
Definition capped_long_args : Args :=
  mkArgs 30 3 1 2 4 1 50 true false false.

(** An uncapped run of two epochs over twenty examples in batches of two,
    with three batches per optimizer step. *)
Definition uncapped_args : Args := mkArgs (-1) 3 2 2 4 1 50 true false false.

(** ** Start-up of [main] and reference summaries *)

(** What a process does around the loading of the model. *)
Inductive startup_event : Type :=
  | EvBarrier        (* [torch.distributed.barrier()] *)
  | EvLoadModel.     (* [get_BertAbs_model()] and the sharing of embeddings *)

(** The process flags that [main] derives from [--local_rank]. *)
Definition main_is_distributed (local_rank : Z) : bool :=
  negb (local_rank =? -1).
Definition main_is_first_process (local_rank : Z) : bool :=
  local_rank =? 0.
Definition main_is_monitoring_process (local_rank : Z) : bool :=
  negb (main_is_distributed local_rank) || main_is_first_process local_rank.

(** The start-up sequence of [main] in one process. *)
Definition main_startup (local_rank : Z) : list startup_event :=
  (if main_is_distributed local_rank
      && negb (main_is_first_process local_rank)
   then [EvBarrier] else [])
  ++ [EvLoadModel]
  ++ (if main_is_first_process local_rank then [EvBarrier] else []).

(** The barriers met in a start-up sequence. *)
Definition barriers (l : list startup_event) : nat :=
  length (List.filter
            (fun e => match e with EvBarrier => true | _ => false end) l).

(** [path_to_formatted_summaries + "/original_{}.txt".format(i)] *)
Definition original_path (path_to_formatted_summaries : string) (i : Z)
    : string :=
  (path_to_formatted_summaries ++ "/original_" ++ pretty i ++ ".txt")%string.

(** The loop of [create_evaluation_set] from index [i] on: an item is a
    pair whose second component holds the lines of the summary. *)
Fixpoint write_originals {A} (path_to_formatted_summaries : string) (i : Z)
    (dataset : list (A * list string)) (fs : gmap string string)
    : gmap string string :=
  match dataset with
  | [] => fs
  | (_, summary_lines) :: rest =>
      write_originals path_to_formatted_summaries (i + 1) rest
        (<[original_path path_to_formatted_summaries i
           := join newline summary_lines]> fs)
  end.

(** [create_evaluation_set], on the files of the file system. *)
Definition create_evaluation_set {A} (path_to_formatted_summaries : string)
    (dataset : list (A * list string)) (fs : gmap string string)
    : gmap string string :=
  write_originals path_to_formatted_summaries 0 dataset fs.

(** ** Training: monitoring *)

(** An event that the monitoring settings of a run allow: signals are
    emitted by the monitoring process only, at positive global steps that
    are multiples of a positive [logging_steps]. *)
Definition log_allowed (args : Args) (e : event) : Prop :=
  match e with
  | EvLog g =>
      is_monitoring_process args = true /\
      0 < logging_steps args /\
      0 < g /\
      g mod logging_steps args = 0
  | _ => True
  end.

(** The run of [uncapped_args] with signals every other optimizer step. *)
Definition logged_args : Args := mkArgs (-1) 3 2 2 4 1 2 true false false.

(** * Properties *)

(** Run the binds of the [result] monad that are ready to fire. *)
Ltac run_binds := cbn [mbind result_bind].


(** ** BertSumOptimizer *)

Section OptimizerFacts.
Context {F : Type} `{PyFloat F}.

Lemma float_int_bound_large : 20000 < float_int_bound.
Proof. reflexivity. Qed.

Lemma float_of_int_fits (z : Z) :
  Z.abs z < float_int_bound -> float_of_int z = OK (float_of_Z z).
Proof.
  intros Hz. unfold float_of_int.
  by assert ((Z.abs z <? float_int_bound) = true) as -> by lia.
Qed.

Lemma float_of_int_overflow (z : Z) :
  float_int_bound <= Z.abs z -> float_of_int z = Raise OverflowError.
Proof.
  intros Hz. unfold float_of_int.
  by assert ((Z.abs z <? float_int_bound) = false) as -> by lia.
Qed.


Lemma py_pow_positive (b : Z) (e : Q) :
  0 < b -> b < float_int_bound ->
  py_pow b e = OK (PyFloatV (fpow (float_of_Z b) (float_lit e))).
Proof.
  intros Hb Hfits. unfold py_pow. rewrite float_of_int_fits by lia.
  run_binds.
  assert ((b =? 0) = false) as -> by lia.
  assert ((b <? 0) = false) as -> by lia.
  reflexivity.
Qed.

Lemma update_rate_positive (self : BertSumOptimizer F) g base w :
  lr self !! g = Some base ->
  warmup_steps self !! g = Some w ->
  0 < w -> w < float_int_bound ->
  0 < _step self -> _step self < float_int_bound ->
  _update_rate self g = OK (schedule base w (_step self)).
Proof.
  intros Hlr Hw Hpos Hfits Hstep Hsfits. unfold _update_rate, dict_get.
  rewrite Hlr, Hw. run_binds.
  rewrite !py_pow_positive by assumption. run_binds.
  unfold py_int_mul. rewrite float_of_int_fits by lia. reflexivity.
Qed.

Lemma update_rate_overflow (self : BertSumOptimizer F) g base :
  lr self !! g = Some base ->
  float_int_bound <= _step self ->
  _update_rate self g = Raise OverflowError.
Proof.
  intros Hlr Hstep. unfold _update_rate, dict_get, py_pow.
  rewrite Hlr. run_binds. by rewrite float_of_int_overflow by lia.
Qed.


Lemma step_schedulable (lr0 : gmap string F) warmup0 be bd we wd self :
  schedulable lr0 warmup0 be bd we wd self ->
  _step self + 1 < float_int_bound ->
  exists self',
    step self = OK self' /\
    schedulable lr0 warmup0 be bd we wd self' /\
    _step self' = _step self + 1 /\
    current_learning_rates self' !! "encoder"%string
      = Some (schedule be we (_step self + 1)) /\
    current_learning_rates self' !! "decoder"%string
      = Some (schedule bd wd (_step self + 1)).
Proof.
  intros [Hlr Hw Hkeys Hbe Hbd Hwe Hwd Hwep Hwdp Hwef Hwdf Hstep] Hfits.
  destruct self as [enc dec lr1 w1 opts n rates]; cbn in *. subst lr1 w1.
  destruct opts as [|[k1 o1] [|[k2 o2] [|]]]; try discriminate.
  injection Hkeys as -> ->.
  unfold step, incr_step; cbn.
  rewrite (update_rate_positive _ "encoder" be we) by (cbn; first [done | lia]). cbn.
  rewrite (update_rate_positive _ "decoder" bd wd) by (cbn; first [done | lia]). cbn.
  eexists. split; [reflexivity|]. cbn. split_and!; try done.
  - constructor; cbn; try done. lia.
  - rewrite lookup_insert_ne by done. apply lookup_insert_eq.
  - apply lookup_insert_eq.
Qed.

(** A counter that leaves the range of floats stops the optimizer. *)
Lemma step_schedulable_overflow (lr0 : gmap string F) warmup0 be bd we wd self :
  schedulable lr0 warmup0 be bd we wd self ->
  float_int_bound <= _step self + 1 ->
  step self = Raise OverflowError.
Proof.
  intros [Hlr Hw Hkeys Hbe Hbd Hwe Hwd Hwep Hwdp Hwef Hwdf Hstep] Hover.
  destruct self as [enc dec lr1 w1 opts n rates]; cbn in *. subst lr1 w1.
  destruct opts as [|[k1 o1] [|[k2 o2] [|]]]; try discriminate.
  injection Hkeys as -> ->.
  unfold step, incr_step; cbn [optimizers step_loop].
  by rewrite (update_rate_overflow _ "encoder" be) by (cbn; first [done | lia]).
Qed.

End OptimizerFacts.

(** C1: on every [BertSumOptimizer] (constructed or not), [zero_grad] does
    not clear any gradient: the attribute [optimizer_decoder] it reads first
    was never assigned, and the call raises [AttributeError]. *)
Theorem zero_grad_raises_AttributeError :
  forall (F : Type) (ops : PyFloat F) (self : BertSumOptimizer F),
    zero_grad self = Raise AttributeError.
Proof. intros F ops self. reflexivity. Qed.





(** ** Device selection *)

(** C7 fails on the code: the test [not torch.cuda.is_available] negates a
    function object, which is always true, so without [--to_cpu] the CPU
    branch is never taken, whatever CUDA's availability.  On a machine
    without CUDA and outside distributed mode the code selects the device
    [cuda] with [n_gpu = 0], where the specification asks for the CPU. *)
Theorem setup_device_never_falls_back :
  forall (local_rank : Z) (torch : Torch),
    fst (setup_device false local_rank torch) <> CpuDevice /\
    setup_device false (-1) (mkTorch false 0) = (CudaDevice None, 0) /\
    setup_device_spec false (-1) (mkTorch false 0) = (CpuDevice, 0).
Proof.
  intros local_rank torch. split_and!; try reflexivity.
  unfold setup_device. cbn.
  destruct (negb (negb (local_rank =? -1))); discriminate.
Qed.

(** ** Batch assembler *)

Lemma fit_to_block_size_length sequence block_size pad :
  length (fit_to_block_size sequence block_size pad) = block_size.
Proof.
  unfold fit_to_block_size.
  destruct (block_size <? length sequence)%nat eqn:Hlt.
  - apply Nat.ltb_lt in Hlt. rewrite length_take. lia.
  - apply Nat.ltb_ge in Hlt. rewrite length_app, length_replicate. lia.
Qed.

Lemma torch_tensor_uniform (rows : list (list Z)) (n : nat) :
  Forall (fun r => length r = n) rows ->
  torch_tensor rows = OK rows.
Proof.
  intros Hrows. destruct rows as [|r rest]; [reflexivity|].
  unfold torch_tensor.
  apply Forall_cons in Hrows as [Hr Hrest].
  assert (forallb (fun r' => Nat.eqb (length r') (length r)) rest = true)
    as ->; [|reflexivity].
  apply forallb_forall. intros r' Hin.
  apply Nat.eqb_eq. rewrite Hr.
  rewrite Forall_forall in Hrest. apply Hrest.
  by apply list_elem_of_In.
Qed.

Lemma filter_all_dropped (data : list Example) :
  (forall x, x ∈ data -> empty_raw x = true) ->
  List.filter keep_example data = [].
Proof.
  induction data as [|x data IH]; intros Hall; [reflexivity|].
  cbn. assert (keep_example x = false) as ->.
  { specialize (Hall x ltac:(left)). unfold empty_raw in Hall.
    by destruct (keep_example x). }
  apply IH. intros y Hy. apply Hall. by right.
Qed.

Lemma filter_kept_count (data : list Example) :
  length (List.filter keep_example data)
  = (length data - length (List.filter empty_raw data))%nat.
Proof.
  induction data as [|x data IH]; [reflexivity|].
  assert (length (List.filter empty_raw data) <= length data)%nat
    by apply List.filter_length_le.
  cbn. unfold empty_raw at 1. destruct (keep_example x); cbn; lia.
Qed.

Lemma collate_returns (data : list Example) tokenizer block_size :
  let kept := List.filter keep_example data in
  let st := map (fun x => encoded_row tokenizer block_size (fst x)) kept in
  let su := map (fun x => encoded_row tokenizer block_size (snd x)) kept in
  collate data tokenizer block_size
  = OK (mkBatch st su
          (compute_token_type_ids st (cls_token_id tokenizer))
          (build_mask st (pad_token_id tokenizer))
          (build_mask su (pad_token_id tokenizer))
          (build_lm_labels su (pad_token_id tokenizer))).
Proof.
  intros kept st su.
  assert (torch_tensor st = OK st) as Hst.
  { apply (torch_tensor_uniform st block_size), Forall_map, Forall_forall.
    intros x _. apply fit_to_block_size_length. }
  assert (torch_tensor su = OK su) as Hsu.
  { apply (torch_tensor_uniform su block_size), Forall_map, Forall_forall.
    intros x _. apply fit_to_block_size_length. }
  unfold collate. rewrite !map_map. cbn [fst snd encode_for_summarization].
  fold kept. subst st su. unfold encoded_row in *.
  rewrite Hst. cbn. rewrite Hsu. reflexivity.
Qed.

(** C5 (amended): if every pair of the input has an empty side, [collate]
    raises no error at all: it returns the batch whose six tensors have no
    row. *)
Theorem collate_all_filtered :
  forall (data : list Example) (tokenizer : Tokenizer) (block_size : nat),
    (forall x, x ∈ data -> empty_raw x = true) ->
    collate data tokenizer block_size = OK empty_batch.
Proof.
  intros data tokenizer block_size Hall.
  rewrite collate_returns, (filter_all_dropped data Hall). reflexivity.
Qed.

Lemma collate_all_filtered_witness :
  collate [(""%string, "a summary"%string); ("a story"%string, ""%string)]
          sample_tokenizer 8
  = OK empty_batch.
Proof.
  apply (collate_all_filtered
           [(""%string, "a summary"%string); ("a story"%string, ""%string)]
           sample_tokenizer 8).
  intros x Hx.
  apply elem_of_cons in Hx as [->|Hx]; [reflexivity|].
  apply elem_of_cons in Hx as [->|Hx]; [reflexivity|].
  by apply elem_of_nil in Hx.
Defined.

(** C5 as stated fails: on a list whose only pair has an empty story,
    [collate] returns a batch and raises no [EmptyBatchError]. *)
Lemma collate_no_EmptyBatchError_counterexample :
  empty_raw (""%string, "a summary"%string) = true /\
  collate [(""%string, "a summary"%string)] sample_tokenizer 8
    = OK empty_batch /\
  collate [(""%string, "a summary"%string)] sample_tokenizer 8
    <> Raise EmptyBatchError.
Proof. split_and!; [reflexivity|reflexivity|discriminate]. Qed.

(** C6 (amended): [collate] excludes exactly the pairs with a side that is
    empty as raw text (the test precedes the encoding): it always returns a
    batch, whose stories and summaries are the encoded rows of the remaining
    pairs in their order, and every tensor of the batch has as many rows as
    the input has pairs minus the number of pairs with an empty raw side. *)
Theorem collate_rows :
  forall (data : list Example) (tokenizer : Tokenizer) (block_size : nat),
    exists b,
      collate data tokenizer block_size = OK b /\
      stories b = map (fun x => encoded_row tokenizer block_size (fst x))
                      (List.filter keep_example data) /\
      summaries b = map (fun x => encoded_row tokenizer block_size (snd x))
                        (List.filter keep_example data) /\
      forall t, t ∈ batch_tensors b ->
        length t = (length data - length (List.filter empty_raw data))%nat.
Proof.
  intros data tokenizer block_size.
  eexists. split; [apply collate_returns|]. cbn.
  split_and!; try reflexivity.
  intros t Ht. rewrite <- filter_kept_count.
  unfold batch_tensors in Ht. cbn in Ht.
  unfold compute_token_type_ids, build_mask, build_lm_labels in Ht.
  repeat (apply elem_of_cons in Ht as [->|Ht];
          [by rewrite ?length_map|]).
  by apply elem_of_nil in Ht.
Qed.

(** Four pairs, one of them without summary: three rows in every tensor. *)
Lemma collate_rows_witness :
  exists b,
    collate [("a"%string, "x"%string); ("b"%string, ""%string);
             ("c"%string, "y"%string); ("d"%string, "z"%string)]
            sample_tokenizer 8 = OK b /\
    forall t, t ∈ batch_tensors b -> length t = 3%nat.
Proof.
  destruct (collate_rows
              [("a"%string, "x"%string); ("b"%string, ""%string);
               ("c"%string, "y"%string); ("d"%string, "z"%string)]
              sample_tokenizer 8) as (b & Hcollate & _ & _ & Hrows).
  exists b. split; [exact Hcollate|exact Hrows].
Defined.

(** C6 as stated fails: a story made of one space is not empty as raw text
    but has no token; [collate] keeps the pair, so the batch has two rows
    where the claim counts one. *)
Lemma collate_keeps_tokenless_pair_counterexample :
  let data := [(" "%string, "a"%string); ("b"%string, "c"%string)] in
  length (List.filter (empty_after_tokenization sample_tokenizer) data) = 1%nat /\
  exists b,
    collate data sample_tokenizer 4 = OK b /\
    length (stories b) = 2%nat /\
    length (stories b)
    <> (length data
        - length (List.filter (empty_after_tokenization sample_tokenizer) data))%nat.
Proof.
  cbn zeta. split; [reflexivity|].
  eexists. split; [reflexivity|]. split; [reflexivity|]. cbn. lia.
Qed.

(** ** decode_summary *)

Lemma append_cons (c : ascii) (s t : string) :
  (String c s ++ t)%string = String c (s ++ t)%string.
Proof. reflexivity. Qed.

Lemma append_associative (s t u : string) :
  ((s ++ t) ++ u)%string = (s ++ (t ++ u))%string.
Proof.
  induction s as [|c s IH]; [reflexivity|]. by rewrite !append_cons, IH.
Qed.

Lemma endswith_iff (s suffix : string) :
  endswith s suffix = true <-> exists prefix, s = (prefix ++ suffix)%string.
Proof.
  induction s as [|c s IH]; cbn [endswith].
  - rewrite orb_false_r. split.
    + intros Heq%String.eqb_eq. by exists ""%string.
    + intros [[|d prefix] Heq]; [apply String.eqb_eq; exact Heq|discriminate].
  - rewrite orb_true_iff, IH. split.
    + intros [Heq%String.eqb_eq|[prefix ->]].
      * by exists ""%string.
      * by exists (String c prefix).
    + intros [[|d prefix] Heq].
      * left. apply String.eqb_eq. exact Heq.
      * right. rewrite append_cons in Heq. injection Heq as -> ->.
        by exists prefix.
Qed.

Lemma split_nonempty (sep : ascii) (s : string) : split sep s <> [].
Proof.
  destruct s as [|c s]; cbn [split]; [done|].
  destruct (Ascii.eqb c sep); [done|]. by destruct (split sep s).
Qed.

Lemma split_app_sep (sep : ascii) (a b : string) :
  split sep (a ++ String sep b) = split sep a ++ split sep b.
Proof.
  induction a as [|c a IH].
  - cbn [String.append split]. change ("" ++ String sep b)%string with (String sep b).
    cbn [split]. by rewrite Ascii.eqb_refl.
  - rewrite append_cons. cbn [split]. destruct (Ascii.eqb c sep); [by rewrite IH|].
    rewrite IH. destruct (split sep a) eqn:Hsplit; [|reflexivity].
    by destruct (split_nonempty sep a).
Qed.

Lemma join_split (sep : ascii) (s : string) :
  join (String sep "") (split sep s) = s.
Proof.
  unfold join. induction s as [|c s IH]; [reflexivity|]. cbn [split].
  destruct (Ascii.eqb c sep) eqn:Hc.
  - apply Ascii.eqb_eq in Hc as ->.
    destruct (split sep s) eqn:Hsplit; [by destruct (split_nonempty sep s)|].
    cbn [String.concat] in *. by rewrite IH.
  - destruct (split sep s) as [|first others] eqn:Hsplit;
      [by destruct (split_nonempty sep s)|].
    destruct others; cbn [String.concat] in *;
      by rewrite ?(append_cons c first), IH.
Qed.

Lemma split_fragments_no_sep (sep : ascii) (s fragment : string) :
  fragment ∈ split sep s -> occurs sep fragment = false.
Proof.
  revert fragment. induction s as [|c s IH]; intros fragment; cbn [split].
  - intros ->%list_elem_of_singleton. reflexivity.
  - destruct (Ascii.eqb c sep) eqn:Hc.
    + intros [->|Hin]%elem_of_cons; [reflexivity|by apply IH].
    + destruct (split sep s) as [|first others] eqn:Hsplit;
        [by destruct (split_nonempty sep s)|].
      intros [->|Hin]%elem_of_cons.
      * cbn [occurs]. rewrite Hc. apply IH. by left.
      * apply IH. by right.
Qed.

Lemma join_snoc (sep : string) (l : list string) (x : string) :
  l <> [] -> join sep (l ++ [x]) = (join sep l ++ sep ++ x)%string.
Proof.
  unfold join. induction l as [|y l IH]; [done|]. intros _.
  destruct l as [|z l].
  - reflexivity.
  - change ((y :: z :: l) ++ [x]) with (y :: ((z :: l) ++ [x])).
    change (String.concat sep (y :: (z :: l) ++ [x]))
      with (y ++ sep ++ String.concat sep ((z :: l) ++ [x]))%string.
    rewrite IH by done.
    change (String.concat sep (y :: z :: l))
      with (y ++ sep ++ String.concat sep (z :: l))%string.
    by rewrite !append_associative.
Qed.

Lemma decode_summary_trailing_dot (summary_tokens : list Z) tokenizer prefix :
  decode tokenizer summary_tokens = (prefix ++ ".")%string ->
  decode_summary summary_tokens tokenizer
  = map (fun s => (s ++ ".")%string) (split dot prefix) ++ ["."%string].
Proof.
  intros Htext. unfold decode_summary. rewrite Htext.
  change (prefix ++ ".")%string with (prefix ++ String dot "")%string.
  rewrite split_app_sep, map_app. reflexivity.
Qed.

(** ** Training loop *)

Lemma all_below_app bound (tr1 tr2 : list event) :
  all_below bound (tr1 ++ tr2) = all_below bound tr1 && all_below bound tr2.
Proof. unfold all_below. apply forallb_app. Qed.

Lemma all_below_mono bound bound' (tr : list event) :
  bound <= bound' -> all_below bound tr = true -> all_below bound' tr = true.
Proof.
  intros Hle. unfold all_below. rewrite !forallb_forall.
  intros Hall e He. specialize (Hall e He). destruct e; try done. lia.
Qed.

Lemma quiet_after_app bound (tr1 tr2 : list event) :
  all_below bound tr1 = true ->
  quiet_after bound (tr1 ++ tr2) = quiet_after bound tr2.
Proof.
  induction tr1 as [|e tr1 IH]; [reflexivity|].
  cbn [all_below forallb app quiet_after]. fold (all_below bound tr1).
  intros [He Htr1]%andb_true_iff. destruct e as [epoch s|g|g]; auto.
  assert ((bound <? g) = false) as -> by lia. auto.
Qed.

Lemma quiet_after_spec bound (tr before after : list event) g :
  quiet_after bound tr = true ->
  tr = before ++ EvOptimizerStep g :: after ->
  bound < g ->
  Forall (fun e => is_work e = false) after.
Proof.
  intros Hquiet -> Hg. induction before as [|e before IH].
  - cbn [app quiet_after] in Hquiet.
    assert ((bound <? g) = true) as Hlt by lia. rewrite Hlt in Hquiet.
    apply Forall_forall. intros e He.
    rewrite forallb_forall in Hquiet.
    specialize (Hquiet e ltac:(by apply list_elem_of_In)).
    by destruct (is_work e).
  - cbn [app quiet_after] in Hquiet. destruct e as [epoch s|g'|g']; auto.
    destruct (bound <? g'); auto.
    rewrite forallb_app in Hquiet. cbn in Hquiet.
    rewrite andb_false_r in Hquiet. discriminate.
Qed.

Lemma optimizer_steps_app (tr1 tr2 : list event) :
  optimizer_steps (tr1 ++ tr2)
  = (optimizer_steps tr1 + optimizer_steps tr2)%nat.
Proof. unfold optimizer_steps. by rewrite List.filter_app, length_app. Qed.

Section TrainFacts.
Context {F : Type} `{PyFloat F}.
Variable forward_loss : nat -> nat -> F.
Variable model : Model.

Lemma stop_at_zero args (st : TrainState F) :
  global_step st = 0 -> stop args st = false.
Proof.
  intros Hz. unfold stop. rewrite Hz.
  destruct (max_steps args >? 0) eqn:Hm; [|reflexivity]. cbn. lia.
Qed.

Lemma stop_false_bound args (st : TrainState F) :
  0 < max_steps args -> stop args st = false ->
  global_step st <= max_steps args.
Proof.
  intros Hmax. unfold stop.
  assert ((max_steps args >? 0) = true) as -> by lia. cbn. lia.
Qed.

Lemma init_train_optimizer :
  __init__ model learning_rates train_warmup_steps
    = OK (train_optimizer (F:=F) model) /\
  schedulable (learning_rates (F:=F)) train_warmup_steps
    (float_lit (2 # 1000)) (float_lit (1 # 10)) 20000 10000
    (train_optimizer model).
Proof.
  pose proof float_int_bound_large.
  split; [reflexivity|]. constructor; cbn; try done; lia.
Qed.

(** Once the sampler, the loader and the schedule are set up, [train]
    enters the loops in the initial state. *)
Lemma train_loops_entered args (train_dataset : list Example) t_total epochs :
  train_dataset <> [] ->
  0 < train_batch_size args ->
  train_schedule args
    (DataLoader_len (length train_dataset) (train_batch_size args))
    = OK (t_total, epochs) ->
  train_loops forward_loss model args train_dataset
  = epoch_loop forward_loss args
      (Z.to_nat (DataLoader_len (length train_dataset) (train_batch_size args)))
      (seq 0 (Z.to_nat epochs))
      (initial_train_state (train_optimizer model)).
Proof.
  intros Hne Hbs Hschedule. unfold train_loops.
  fold (train_batch_size args). unfold RandomSampler_init, DataLoader_init.
  assert ((length train_dataset =? 0)%nat = false) as ->.
  { apply Nat.eqb_neq. by destruct train_dataset. }
  assert ((train_batch_size args <=? 0) = false) as -> by lia.
  cbn [mbind result_bind Z.ltb Z.compare]. rewrite Hschedule.
  run_binds. by rewrite (proj1 init_train_optimizer).
Qed.

Lemma train_loops_inv args (train_dataset : list Example) (st : TrainState F) :
  train_loops forward_loss model args train_dataset = OK st ->
  exists len_dataloader epochs,
    epoch_loop forward_loss args len_dataloader epochs
      (initial_train_state (train_optimizer model)) = OK st.
Proof.
  unfold train_loops. rewrite (proj1 init_train_optimizer).
  destruct (RandomSampler_init _); [|discriminate].
  destruct (DataLoader_init _ _ _) as [len|]; [|discriminate].
  run_binds.
  destruct (train_schedule args len) as [[t_total epochs]|]; [|discriminate].
  run_binds. eauto.
Qed.

Lemma train_zero_steps args train_dataset (st : TrainState F) :
  train_loops forward_loss model args train_dataset = OK st ->
  global_step st = 0 ->
  train forward_loss model args train_dataset = Raise ZeroDivisionError.
Proof.
  intros Hloops Hz. unfold train. rewrite Hloops. run_binds.
  unfold py_truediv. rewrite Hz, float_of_int_fits; [reflexivity|].
  pose proof float_int_bound_large. lia.
Qed.

(** *** Epochs that never complete an accumulation window *)

Lemma batch_body_accumulates args epoch step_no (st : TrainState F) :
  0 < Z.of_nat step_no + 1 < gradient_accumulation_steps args ->
  exists st1,
    batch_body forward_loss args epoch step_no st = OK st1 /\
    global_step st1 = global_step st /\
    optimizer st1 = optimizer st /\
    trace st1 = trace st ++ [EvBatch epoch step_no].
Proof.
  intros Hlt. unfold batch_body, py_mod.
  assert ((gradient_accumulation_steps args =? 0) = false) as -> by lia.
  cbn. rewrite Z.mod_small by lia.
  assert ((Z.of_nat step_no + 1 =? 0) = false) as -> by lia.
  eexists. split_and!; reflexivity.
Qed.

Lemma inner_loop_idle args epoch (todo : list nat) (st : TrainState F) :
  Forall (fun s => Z.of_nat s + 1 < gradient_accumulation_steps args) todo ->
  global_step st = 0 ->
  exists st',
    inner_loop forward_loss args epoch todo st = OK st' /\
    global_step st' = 0 /\
    optimizer_steps (trace st') = optimizer_steps (trace st).
Proof.
  revert st. induction todo as [|s todo IH]; intros st Hall Hz.
  - exists st. split_and!; done.
  - apply Forall_cons in Hall as [Hs Hall].
    destruct (batch_body_accumulates args epoch s st ltac:(lia))
      as (st1 & Hb & Hg1 & _ & Ht1).
    cbn [inner_loop]. rewrite Hb. run_binds.
    rewrite stop_at_zero by congruence.
    destruct (IH st1 Hall ltac:(congruence)) as (st' & Hloop & Hz' & Hsteps).
    exists st'. split_and!; try done.
    rewrite Hsteps, Ht1, optimizer_steps_app. cbn. lia.
Qed.

Lemma epoch_loop_idle args (len_dataloader : nat) (todo : list nat)
    (st : TrainState F) :
  Z.of_nat len_dataloader < gradient_accumulation_steps args ->
  global_step st = 0 ->
  exists st',
    epoch_loop forward_loss args len_dataloader todo st = OK st' /\
    global_step st' = 0 /\
    optimizer_steps (trace st') = optimizer_steps (trace st).
Proof.
  intros Hlen. revert st. induction todo as [|e todo IH]; intros st Hz.
  - exists st. split_and!; done.
  - destruct (inner_loop_idle args e (seq 0 len_dataloader) st)
      as (st1 & Hinner & Hz1 & Hsteps1); [|done|].
    { apply Forall_forall. intros s Hs%elem_of_seq. lia. }
    cbn [epoch_loop]. rewrite Hinner. run_binds.
    rewrite stop_at_zero by done.
    destruct (IH st1 Hz1) as (st' & Hloop & Hz' & Hsteps).
    exists st'. split_and!; try done. congruence.
Qed.

(** *** The early stop *)

Lemma monitoring_returns args (st : TrainState F) fe fd :
  current_learning_rates (optimizer st) !! "encoder"%string = Some fe ->
  current_learning_rates (optimizer st) !! "decoder"%string = Some fd ->
  exists st',
    monitoring args st = OK st' /\
    optimizer st' = optimizer st /\
    global_step st' = global_step st /\
    (trace st' = trace st \/ trace st' = trace st ++ [EvLog (global_step st)]).
Proof.
  intros He Hd. unfold monitoring, py_mod, dict_get.
  destruct (is_monitoring_process args && (logging_steps args >? 0)) eqn:Hm;
    [|exists st; split_and!; auto].
  apply andb_true_iff in Hm as [_ Hl].
  assert ((logging_steps args =? 0) = false) as -> by lia.
  run_binds.
  destruct (global_step st mod logging_steps args =? 0);
    [|exists st; split_and!; auto].
  rewrite He, Hd. run_binds.
  eexists. split_and!; [reflexivity..|]. right. reflexivity.
Qed.

Lemma batch_body_invariant args bound epoch step_no (st : TrainState F) :
  gradient_accumulation_steps args <> 0 ->
  train_invariant bound st ->
  global_step st <= bound ->
  match batch_body forward_loss args epoch step_no st with
  | OK st' => train_invariant bound st'
  | Raise e => e = OverflowError /\ float_int_bound <= bound + 1
  end.
Proof.
  intros Hgas (Hsched & Hcount & Hbelow & Hquiet & Hle) Hrun.
  assert (all_below bound (trace st) = true) as Hbound
    by (by apply (all_below_mono (global_step st))).
  unfold batch_body, py_mod.
  assert ((gradient_accumulation_steps args =? 0) = false) as -> by lia.
  run_binds.
  destruct (_ mod _ =? 0).
  - cbn [optimizer global_step tr_loss logging_loss trace].
    destruct (Z_lt_le_dec (_step (optimizer st) + 1) float_int_bound)
      as [Hfits|Hover]; cycle 1.
    { rewrite (step_schedulable_overflow _ _ _ _ _ _ _ Hsched Hover).
      run_binds. split; [reflexivity|lia]. }
    destruct (step_schedulable _ _ _ _ _ _ _ Hsched Hfits)
      as (self' & Hstep & Hsched' & Hcount' & He & Hd).
    rewrite Hstep. run_binds.
    match goal with
    | |- context [monitoring args ?s] =>
        destruct (monitoring_returns args s _ _ He Hd)
          as (st' & Hmon & Hopt & Hgs & Htrace)
    end.
    rewrite Hmon.
    cbn [optimizer global_step trace] in Hopt, Hgs, Htrace.
    unfold train_invariant. rewrite Hopt, Hgs.
    assert (all_below (global_step st + 1)
              ((trace st ++ [EvBatch epoch step_no])
               ++ [EvOptimizerStep (global_step st + 1)]) = true) as Hbelow1.
    { rewrite !all_below_app.
      rewrite (all_below_mono (global_step st) (global_step st + 1) _
                 ltac:(lia) Hbelow).
      cbn. by rewrite Z.leb_refl. }
    assert (quiet_after bound
              (((trace st ++ [EvBatch epoch step_no])
                ++ [EvOptimizerStep (global_step st + 1)])
               ++ [EvLog (global_step st + 1)]) = true) as Hquiet2.
    { rewrite <- !app_assoc, quiet_after_app by done. cbn.
      by destruct (bound <? global_step st + 1). }
    assert (quiet_after bound
              ((trace st ++ [EvBatch epoch step_no])
               ++ [EvOptimizerStep (global_step st + 1)]) = true) as Hquiet1.
    { rewrite <- !app_assoc, quiet_after_app by done. cbn.
      by destruct (bound <? global_step st + 1). }
    destruct Htrace as [-> | ->]; split_and!; try done; try lia.
    rewrite all_below_app, Hbelow1. reflexivity.
  - unfold train_invariant.
    cbn [optimizer global_step trace]. split_and!; try done.
    + rewrite all_below_app, Hbelow. reflexivity.
    + rewrite quiet_after_app by done. reflexivity.
Qed.

Lemma inner_loop_invariant args epoch (todo : list nat) (st : TrainState F) :
  0 < max_steps args ->
  gradient_accumulation_steps args <> 0 ->
  train_invariant (max_steps args) st ->
  global_step st <= max_steps args ->
  match inner_loop forward_loss args epoch todo st with
  | OK st' => train_invariant (max_steps args) st'
  | Raise e => e = OverflowError /\ float_int_bound <= max_steps args + 1
  end.
Proof.
  intros Hmax Hgas. revert st.
  induction todo as [|s todo IH]; intros st Hinv Hrun; [done|].
  pose proof (batch_body_invariant args _ epoch s st Hgas Hinv Hrun) as Hbody.
  cbn [inner_loop].
  destruct (batch_body _ _ _ _ _) as [st1|e]; [|exact Hbody].
  run_binds.
  destruct (stop args st1) eqn:Hstop; [done|].
  apply IH; [done|]. by apply stop_false_bound.
Qed.

Lemma epoch_loop_invariant args (len_dataloader : nat) (todo : list nat)
    (st : TrainState F) :
  0 < max_steps args ->
  gradient_accumulation_steps args <> 0 ->
  train_invariant (max_steps args) st ->
  global_step st <= max_steps args ->
  match epoch_loop forward_loss args len_dataloader todo st with
  | OK st' => train_invariant (max_steps args) st'
  | Raise e => e = OverflowError /\ float_int_bound <= max_steps args + 1
  end.
Proof.
  intros Hmax Hgas. revert st.
  induction todo as [|e todo IH]; intros st Hinv Hrun; [done|].
  pose proof (inner_loop_invariant args e (seq 0 len_dataloader) st
                Hmax Hgas Hinv Hrun) as Hinner.
  cbn [epoch_loop].
  destruct (inner_loop _ _ _ _ _) as [st1|err]; [|exact Hinner].
  run_binds.
  destruct (stop args st1) eqn:Hstop; [done|].
  apply IH; [done|]. by apply stop_false_bound.
Qed.

(** Without a valid accumulation length no batch gets through the loops. *)
Lemma epoch_loop_no_accumulation args (len_dataloader : nat)
    (todo : list nat) (st st' : TrainState F) :
  gradient_accumulation_steps args = 0 ->
  epoch_loop forward_loss args len_dataloader todo st = OK st' ->
  st' = st.
Proof.
  intros Hgas. induction todo as [|e todo IH]; cbn [epoch_loop].
  - by intros [= <-].
  - destruct len_dataloader as [|n].
    + cbn [seq inner_loop mbind result_bind].
      destruct (stop args st); [by intros [= <-]|exact IH].
    + cbn [seq inner_loop]. unfold batch_body, py_mod. rewrite Hgas.
      cbn. discriminate.
Qed.

Lemma initial_train_invariant bound :
  0 <= bound ->
  train_invariant bound (initial_train_state (train_optimizer (F:=F) model)).
Proof.
  intros Hb. unfold train_invariant.
  split; [apply init_train_optimizer|]. cbn. split_and!; try done. lia.
Qed.

Lemma epoch_loop_stops args (len_dataloader : nat) (epochs : list nat)
    (st : TrainState F) :
  0 < max_steps args ->
  epoch_loop forward_loss args len_dataloader epochs
    (initial_train_state (train_optimizer model)) = OK st ->
  global_step st <= max_steps args + 1 /\
  forall before g after,
    trace st = before ++ EvOptimizerStep g :: after ->
    max_steps args < g ->
    Forall (fun e => is_work e = false) after.
Proof.
  intros Hmax Hloop.
  destruct (decide (gradient_accumulation_steps args = 0)) as [Hgas|Hgas].
  - apply (epoch_loop_no_accumulation _ _ _ _ _ Hgas) in Hloop as ->.
    cbn. split; [lia|]. intros [|e before] g after Heq; discriminate.
  - pose proof (epoch_loop_invariant args len_dataloader epochs
                  (initial_train_state (train_optimizer model)) Hmax Hgas)
      as Hinv.
    rewrite Hloop in Hinv.
    destruct Hinv as (_ & _ & _ & Hquiet & Hle).
    { apply initial_train_invariant. lia. }
    { cbn. lia. }
    split; [exact Hle|]. intros before g after Htrace Hg.
    by apply (quiet_after_spec (max_steps args) (trace st) before after g).
Qed.
End TrainFacts.

(** C3 fails on the code: with [max_steps = 5], two accumulation steps, a
    batch size of 2 and twenty examples the loader has ten batches, the
    recomputed number of epochs is [5 // (10 // 2 + 1) = 0], the loops run
    no batch and no optimizer step, the counter stays at 0 and [train]
    ends in the [ZeroDivisionError] of [tr_loss / global_step], whatever
    the configured number of epochs. *)
Theorem train_max_steps_scenario :
  forall (F : Type) (ops : PyFloat F) (forward_loss : nat -> nat -> F)
         (model : Model) (args : Args) (train_dataset : list Example),
    max_steps args = 5 ->
    gradient_accumulation_steps args = 2 ->
    train_batch_size args = 2 ->
    length train_dataset = 20%nat ->
    (exists st,
       train_loops forward_loss model args train_dataset = OK st /\
       global_step st = 0 /\
       trace st = [] /\
       optimizer_steps (trace st) = 0%nat) /\
    train forward_loss model args train_dataset = Raise ZeroDivisionError.
Proof.
  intros F ops forward_loss model args train_dataset Hmax Hgas Hbs Hlen.
  assert (train_loops forward_loss model args train_dataset
          = OK (initial_train_state (train_optimizer model))) as Hloops.
  { rewrite (train_loops_entered forward_loss model args train_dataset 5 0).
    - reflexivity.
    - intros ->. discriminate Hlen.
    - lia.
    - rewrite Hbs, Hlen. unfold train_schedule. rewrite Hmax, Hgas.
      reflexivity. }
  split.
  - eexists. split; [exact Hloops|]. split_and!; reflexivity.
  - by apply (train_zero_steps _ _ _ _ _ Hloops).
Qed.

Lemma train_max_steps_scenario_witness :
  (exists st,
     train_loops sample_loss bert_abs (sample_args 10) sample_dataset = OK st /\
     global_step st = 0 /\
     trace st = [] /\
     optimizer_steps (trace st) = 0%nat) /\
  train sample_loss bert_abs (sample_args 10) sample_dataset
    = Raise ZeroDivisionError.
Proof.
  apply (train_max_steps_scenario fexpr fexpr_float sample_loss bert_abs
           (sample_args 10) sample_dataset); reflexivity.
Defined.

(** C9: whenever the loops of [train] end with [global_step = 0], the final
    expression [tr_loss / global_step] raises [ZeroDivisionError].  On a
    dataset that is not empty this happens when [max_steps > 0] and the
    recomputed number of epochs
    [max_steps // (len(train_dataloader) // gradient_accumulation_steps + 1)]
    is 0, and when an epoch has fewer batches than
    [gradient_accumulation_steps]. *)
Theorem train_zero_steps_divides_by_zero :
  forall (F : Type) (ops : PyFloat F) (forward_loss : nat -> nat -> F)
         (model : Model) (args : Args) (train_dataset : list Example),
    let len_dataloader :=
      DataLoader_len (length train_dataset) (train_batch_size args) in
    let ran_no_step :=
      exists st,
        train_loops forward_loss model args train_dataset = OK st /\
        global_step st = 0 /\
        optimizer_steps (trace st) = 0%nat in
    (forall st,
       train_loops forward_loss model args train_dataset = OK st ->
       global_step st = 0 ->
       train forward_loss model args train_dataset = Raise ZeroDivisionError) /\
    (train_dataset <> [] ->
     0 < train_batch_size args ->
     0 < max_steps args ->
     gradient_accumulation_steps args <> 0 ->
     len_dataloader / gradient_accumulation_steps args + 1 <> 0 ->
     max_steps args
       / (len_dataloader / gradient_accumulation_steps args + 1) = 0 ->
     ran_no_step /\
     train forward_loss model args train_dataset = Raise ZeroDivisionError) /\
    (train_dataset <> [] ->
     0 < train_batch_size args ->
     len_dataloader < gradient_accumulation_steps args ->
     ran_no_step /\
     train forward_loss model args train_dataset = Raise ZeroDivisionError).
Proof.
  intros F ops forward_loss model args train_dataset len_dataloader ran_no_step.
  assert (forall st,
            train_loops forward_loss model args train_dataset = OK st ->
            global_step st = 0 ->
            train forward_loss model args train_dataset
            = Raise ZeroDivisionError) as Hzero
    by (intros st; apply train_zero_steps).
  assert (ran_no_step ->
          ran_no_step /\
          train forward_loss model args train_dataset
          = Raise ZeroDivisionError) as Hboth.
  { intros Hran. split; [exact Hran|].
    destruct Hran as (st & Hloops & Hz & _). by apply (Hzero st). }
  split_and!; [exact Hzero| |].
  - intros Hne Hbs Hmax Hgas Hden Hepochs. apply Hboth.
    exists (initial_train_state (train_optimizer model)).
    split_and!; try reflexivity.
    rewrite (train_loops_entered forward_loss model args train_dataset
               (max_steps args) 0); [reflexivity|done|done|].
    fold len_dataloader. unfold train_schedule, py_floordiv.
    assert ((max_steps args >? 0) = true) as -> by lia.
    assert ((gradient_accumulation_steps args =? 0) = false) as -> by lia.
    run_binds.
    assert ((len_dataloader / gradient_accumulation_steps args + 1 =? 0)
            = false) as -> by lia.
    run_binds. by rewrite Hepochs.
  - intros Hne Hbs Hlen. apply Hboth.
    assert (0 <= len_dataloader) as Hnonneg.
    { unfold len_dataloader, DataLoader_len. apply Z.div_pos; lia. }
    assert (exists t_total epochs,
              train_schedule args len_dataloader = OK (t_total, epochs))
      as (t_total & epochs & Hschedule).
    { unfold train_schedule, py_floordiv.
      assert ((gradient_accumulation_steps args =? 0) = false) as -> by lia.
      rewrite Z.div_small by lia. cbn.
      destruct (max_steps args >? 0); cbn; eauto. }
    destruct (epoch_loop_idle forward_loss args (Z.to_nat len_dataloader)
                (seq 0 (Z.to_nat epochs))
                (initial_train_state (train_optimizer model)))
      as (st & Hloop & Hz & Hsteps); [lia|reflexivity|].
    exists st. split_and!; try done.
    by rewrite (train_loops_entered forward_loss model args train_dataset
                  t_total epochs).
Qed.

(** The run of [sample_args] ends in the division by zero. *)
Lemma train_zero_steps_divides_by_zero_witness :
  train sample_loss bert_abs (sample_args 3) sample_dataset
    = Raise ZeroDivisionError.
Proof.
  pose proof (train_zero_steps_divides_by_zero fexpr fexpr_float sample_loss
                bert_abs (sample_args 3) sample_dataset) as Hthm.
  cbv zeta in Hthm. destruct Hthm as (_ & Hepochs & _).
  apply Hepochs; first [reflexivity | vm_compute; discriminate].
Defined.

(** C4: with [max_steps > 0], in every run of the two loops of [train],
    entered with the freshly constructed optimizer and a counter of 0, for
    any number of epochs and of batches per epoch, no batch is processed
    and no optimizer step is taken after an optimizer step that left the
    counter strictly above [max_steps]: both loops are left at once, and
    the counter ends at most one above [max_steps].  When the accumulation
    length is not zero the loops return normally; the only other outcome is
    the [OverflowError] of a counter that no longer fits a float, which
    takes a cap of [2 ** 1024 - 2 ** 970 - 1] steps or more.  The same
    holds of every run of [train] that gets through its loops. *)
Theorem early_stop_ends_training :
  forall (F : Type) (ops : PyFloat F) (forward_loss : nat -> nat -> F)
         (model : Model) (args : Args),
    0 < max_steps args ->
    let stops_at_once (st : TrainState F) :=
      global_step st <= max_steps args + 1 /\
      forall before g after,
        trace st = before ++ EvOptimizerStep g :: after ->
        max_steps args < g ->
        Forall (fun e => is_work e = false) after in
    (forall (len_dataloader : nat) (epochs : list nat),
       (gradient_accumulation_steps args <> 0 ->
        (exists st,
           epoch_loop forward_loss args len_dataloader epochs
             (initial_train_state (train_optimizer model)) = OK st) \/
        (epoch_loop forward_loss args len_dataloader epochs
           (initial_train_state (train_optimizer model))
         = Raise OverflowError /\
         float_int_bound <= max_steps args + 1)) /\
       (forall st,
          epoch_loop forward_loss args len_dataloader epochs
            (initial_train_state (train_optimizer model)) = OK st ->
          stops_at_once st)) /\
    (forall (train_dataset : list Example) st,
       train_loops forward_loss model args train_dataset = OK st ->
       stops_at_once st).
Proof.
  intros F ops forward_loss model args Hmax stops_at_once. split.
  - intros len_dataloader epochs. split.
    + intros Hgas.
      pose proof (epoch_loop_invariant forward_loss args len_dataloader epochs
                    (initial_train_state (train_optimizer model)) Hmax Hgas
                    (initial_train_invariant model (max_steps args)
                       ltac:(lia)) ltac:(cbn; lia)) as Hinv.
      destruct (epoch_loop _ _ _ _ _) as [st|e]; [left; by exists st|].
      right. by destruct Hinv as [-> Hover].
    + intros st Hloop. by apply (epoch_loop_stops forward_loss model args
                                   len_dataloader epochs).
  - intros train_dataset st Hloops.
    apply train_loops_inv in Hloops as (len_dataloader & epochs & Hloop).
    by apply (epoch_loop_stops forward_loss model args len_dataloader epochs).
Qed.

(** A run capped at one step over two epochs of three batches: the second
    optimizer step leaves the counter at 2 and ends the run after four
    events. *)
Lemma early_stop_ends_training_witness :
  exists st,
    epoch_loop sample_loss capped_args 3 [0; 1]%nat
      (initial_train_state (train_optimizer bert_abs)) = OK st /\
    trace st
      = [EvBatch 0 0; EvOptimizerStep 1; EvBatch 0 1; EvOptimizerStep 2] /\
    global_step st <= 2 /\
    forall before g after,
      trace st = before ++ EvOptimizerStep g :: after ->
      1 < g ->
      Forall (fun e => is_work e = false) after.
Proof.
  pose proof (early_stop_ends_training fexpr fexpr_float sample_loss bert_abs
                capped_args ltac:(reflexivity)) as Hthm.
  cbv zeta in Hthm. destruct Hthm as [Hloops _].
  destruct (Hloops 3%nat [0; 1]%nat) as [Hreturns Hstops].
  eexists. split; [reflexivity|]. split; [reflexivity|].
  apply Hstops. reflexivity.
Defined.

(** ** Evaluation *)

Lemma mapM_result_Forall2 {A B} (f : A -> result B) (R : A -> B -> Prop)
    (l : list A) :
  Forall (fun x => exists y, f x = OK y /\ R x y) l ->
  exists ys, mapM f l = OK ys /\ Forall2 R l ys.
Proof.
  induction 1 as [|x l (y & Hfx & Hxy) _ (ys & Hys & HR)].
  - exists []. split; [reflexivity|constructor].
  - exists (y :: ys). split; [|by constructor].
    cbn [mapM]. rewrite Hfx. run_binds. rewrite Hys. reflexivity.
Qed.

Lemma Forall2_zip {A B} (R : A -> B -> Prop) (l : list A) (k : list B) :
  Forall2 R l k -> Forall (fun xy => R (fst xy) (snd xy)) (zip l k).
Proof. induction 1; cbn; constructor; auto. Qed.

Section EvaluateFacts.
Context {F : Type} `{PyFloat F}.
Variable beam : tensor -> tensor -> tensor -> BeamResults F.
Hypothesis beam_ok : beam_well_formed beam.

Lemma argmax_from_bound (l : list F) best_i best i :
  (best_i < i)%nat -> (argmax_from best_i best i l < i + length l)%nat.
Proof.
  revert best_i best i. induction l as [|x l IH]; intros best_i best i Hlt.
  - cbn. lia.
  - cbn [argmax_from length]. destruct (flt best x).
    + specialize (IH i x (S i) ltac:(lia)). lia.
    + specialize (IH best_i best (S i) ltac:(lia)). lia.
Qed.

Lemma argmax_bound (l : list F) :
  l <> [] -> exists idx, argmax l = OK idx /\ (idx < length l)%nat.
Proof.
  destruct l as [|x l]; [done|]. intros _. eexists. split; [reflexivity|].
  pose proof (argmax_from_bound l 0%nat x 1%nat ltac:(lia)). cbn. lia.
Qed.

Lemma summarize_length (source token_type_ids mask : tensor) :
  exists summaries_tokens,
    summarize beam source token_type_ids mask = OK summaries_tokens /\
    length summaries_tokens = length source.
Proof.
  destruct (beam_ok source token_type_ids mask) as [Hlen Hall].
  unfold summarize.
  set (results := beam source token_type_ids mask) in *.
  set (n := length source) in *.
  pose (R := fun (i idx : nat) =>
               exists p, predictions results !! i = Some p /\
                         (idx < length p)%nat).
  destruct (mapM_result_Forall2
              (fun i => s ← list_get (scores results) i; argmax s) R (seq 0 n))
    as (best & Hbest & HR).
  { apply Forall_forall. intros i [_ Hi]%elem_of_seq.
    destruct (lookup_lt_is_Some_2 (scores results) i) as [s Hs]; [lia|].
    destruct (Forall2_lookup_l _ _ _ _ _ Hall Hs) as (p & Hp & Hne & Hlenp).
    destruct (argmax_bound s Hne) as (idx & Hidx & Hlt).
    exists idx. unfold list_get. rewrite Hs. run_binds.
    split; [exact Hidx|]. exists p. split; [exact Hp|lia]. }
  rewrite Hbest. run_binds.
  destruct (mapM_result_Forall2
              (fun bi => p ← list_get (predictions results) (fst bi);
                         list_get p (snd bi))
              (fun _ _ => True) (zip (seq 0 n) best))
    as (out & Hout & Hlen2).
  { eapply Forall_impl; [apply (Forall2_zip _ _ _ HR)|].
    intros [i idx] (p & Hp & Hlt). cbn [fst snd] in *.
    destruct (lookup_lt_is_Some_2 p idx Hlt) as [tokens Htokens].
    exists tokens. unfold list_get. rewrite Hp. run_binds.
    by rewrite Htokens. }
  exists out. split; [exact Hout|].
  apply Forall2_length in Hlen2, HR.
  rewrite <- Hlen2, length_zip_with, <- HR, length_seq. lia.
Qed.

Lemma batch_summaries_length tokenizer (data : list Example) :
  exists summaries_tokens,
    batch_summaries beam tokenizer data = OK summaries_tokens /\
    length summaries_tokens = length (List.filter keep_example data).
Proof.
  unfold batch_summaries. rewrite collate_returns. run_binds.
  cbn [stories encoder_token_type_ids encoder_mask].
  match goal with
  | |- context [summarize beam ?s ?t ?m] =>
      destruct (summarize_length s t m) as (out & Hout & Hlen)
  end.
  exists out. split; [exact Hout|]. by rewrite Hlen, length_map.
Qed.
End EvaluateFacts.

Lemma string_length_append (s t : string) :
  String.length (s ++ t) = (String.length s + String.length t)%nat.
Proof.
  induction s as [|c s IH]; [reflexivity|].
  rewrite append_cons. cbn [String.length]. by rewrite IH.
Qed.

Lemma append_cancel_right (s t u : string) :
  (s ++ u)%string = (t ++ u)%string -> s = t.
Proof.
  revert t. induction s as [|c s IH]; intros [|d t] Heq; [done| | |].
  - apply (f_equal String.length) in Heq.
    rewrite !string_length_append in Heq. cbn in Heq. lia.
  - apply (f_equal String.length) in Heq.
    rewrite !string_length_append in Heq. cbn in Heq. lia.
  - rewrite !append_cons in Heq. injection Heq as -> Heq.
    by rewrite (IH t Heq).
Qed.

Lemma summary_file_name_inj (i j : Z) :
  summary_file_name i = summary_file_name j -> i = j.
Proof.
  unfold summary_file_name. intros Heq.
  apply (inj (String.append "model_")) in Heq.
  apply append_cancel_right in Heq.
  by apply (inj pretty) in Heq.
Qed.

Lemma os_path_join_inj (a b b' : string) :
  startswith_slash b = false -> startswith_slash b' = false ->
  os_path_join a b = os_path_join a b' -> b = b'.
Proof.
  unfold os_path_join. intros -> ->.
  destruct (String.eqb a "" || endswith a "/"); intros Heq.
  - by apply (inj (String.append a)) in Heq.
  - apply (inj (String.append a)) in Heq.
    by apply (inj (String.append "/")) in Heq.
Qed.

Lemma summary_path_inj path (i j : nat) :
  summary_path path i = summary_path path j -> i = j.
Proof.
  unfold summary_path. intros Heq.
  apply os_path_join_inj in Heq; [|reflexivity..].
  apply summary_file_name_inj in Heq. lia.
Qed.

Lemma write_summaries_spec tokenizer path (summaries_tokens : list (list Z))
    (st : EvalState) (k0 : nat) :
  idx_summary st = Z.of_nat k0 ->
  let st' := fold_left (write_summary tokenizer path) summaries_tokens st in
  idx_summary st' = Z.of_nat (k0 + length summaries_tokens) /\
  (forall k tokens,
     summaries_tokens !! k = Some tokens ->
     files st' !! summary_path path (k0 + k)
     = Some (summary_file_content tokens tokenizer)) /\
  (forall q,
     (forall k, (k0 <= k < k0 + length summaries_tokens)%nat ->
                q <> summary_path path k) ->
     files st' !! q = files st !! q).
Proof.
  intros Hidx. induction summaries_tokens as [|t l IH] using rev_ind.
  - cbn. split_and!; [by rewrite Nat.add_0_r|done|done].
  - cbn zeta in *. rewrite fold_left_app. cbn [fold_left].
    destruct IH as (IHidx & IHfiles & IHother).
    set (st1 := fold_left (write_summary tokenizer path) l st) in *.
    assert (files (write_summary tokenizer path st1 t)
            = <[summary_path path (k0 + length l)
                := summary_file_content t tokenizer]> (files st1)) as ->.
    { unfold write_summary, summary_path. cbn [files]. by rewrite IHidx. }
    change (idx_summary (write_summary tokenizer path st1 t))
      with (idx_summary st1 + 1).
    rewrite IHidx, length_app. cbn [length].
    split_and!.
    + lia.
    + intros k tokens Hk.
      destruct (decide (k = length l)) as [->|Hne].
      * rewrite list_lookup_middle in Hk by done. injection Hk as ->.
        apply lookup_insert_eq.
      * assert (k < length l)%nat as Hlt.
        { apply lookup_lt_Some in Hk. rewrite length_app in Hk. cbn in Hk. lia. }
        rewrite lookup_app_l in Hk by done.
        rewrite lookup_insert_ne; [by apply IHfiles|].
        intros Heq%summary_path_inj. lia.
    + intros q Hq. rewrite lookup_insert_ne; [|apply not_eq_sym, Hq; lia].
      apply IHother. intros k Hk. apply Hq. lia.
Qed.

Section EvalLoopFacts.
Context {F : Type} `{PyFloat F}.
Variable beam : tensor -> tensor -> tensor -> BeamResults F.
Hypothesis beam_ok : beam_well_formed beam.

Lemma summaries_of_spec tokenizer (data : list Example) :
  batch_summaries beam tokenizer data = OK (summaries_of beam tokenizer data) /\
  length (summaries_of beam tokenizer data)
  = length (List.filter keep_example data).
Proof.
  destruct (batch_summaries_length beam beam_ok tokenizer data)
    as (out & Hout & Hlen).
  unfold summaries_of. by rewrite Hout.
Qed.

Lemma eval_loop_spec tokenizer path (todo : list (list Example))
    (st : EvalState) :
  eval_loop beam tokenizer path todo st
  = OK (fold_left (write_summary tokenizer path)
          (concat (map (summaries_of beam tokenizer) todo)) st).
Proof.
  revert st. induction todo as [|data todo IH]; intros st; [reflexivity|].
  destruct (summaries_of_spec tokenizer data) as [Hsum _].
  cbn [eval_loop map concat]. rewrite fold_left_app, <- IH.
  unfold batch_summaries in Hsum. rewrite collate_returns in *.
  cbn [mbind result_bind] in *. by rewrite Hsum.
Qed.

Lemma summaries_concat_length tokenizer (todo : list (list Example)) :
  length (concat (map (summaries_of beam tokenizer) todo))
  = length (List.filter keep_example (concat todo)).
Proof.
  induction todo as [|data todo IH]; [reflexivity|].
  cbn [map concat]. rewrite length_app, List.filter_app, length_app, IH.
  by rewrite (proj2 (summaries_of_spec tokenizer data)).
Qed.
End EvalLoopFacts.

(** *** Batches of a sequential loader *)

Lemma concat_chunks_prefix {A} (bs : nat) (l : list A) (j : nat) :
  concat (map (fun i => take bs (drop (i * bs)%nat l)) (seq 0 j))
  = take (j * bs)%nat l.
Proof.
  induction j as [|j IH]; [reflexivity|].
  rewrite seq_S, map_app, concat_app, IH. cbn [map concat].
  rewrite app_nil_r, take_take_drop. f_equal. lia.
Qed.

Lemma num_batches_cover (n : nat) (batch_size : Z) :
  0 < batch_size ->
  (n <= Z.to_nat (DataLoader_len n batch_size) * Z.to_nat batch_size)%nat.
Proof.
  intros Hpos. unfold DataLoader_len.
  set (a := Z.of_nat n + batch_size - 1).
  assert (0 <= a / batch_size) by (apply Z.div_pos; lia).
  pose proof (Z.div_mod a batch_size ltac:(lia)) as Hdm.
  pose proof (Z.mod_pos_bound a batch_size Hpos) as Hmod.
  rewrite <- Z2Nat.inj_mul by lia.
  apply Nat2Z.inj_le. rewrite Z2Nat.id by nia. nia.
Qed.

Lemma batches_cover {A} (batch_size : Z) (l : list A) :
  0 < batch_size -> concat (batches batch_size l) = l.
Proof.
  intros Hpos. unfold batches. rewrite concat_chunks_prefix.
  apply take_ge, num_batches_cover, Hpos.
Qed.

Lemma batches_split {A} (batch_size : Z) (l : list A) (p : nat) :
  0 < batch_size -> (p < length l)%nat ->
  let bs := Z.to_nat batch_size in
  exists k,
    batches batch_size l
    = map (fun i => take bs (drop (i * bs)%nat l)) (seq 0 (p / bs))
      ++ take bs (drop (p / bs * bs)%nat l)
      :: map (fun i => take bs (drop (i * bs)%nat l)) (seq (S (p / bs)) k).
Proof.
  intros Hpos Hp bs.
  pose proof (num_batches_cover (length l) batch_size Hpos) as Hcover.
  fold bs in Hcover.
  set (nb := Z.to_nat (DataLoader_len (length l) batch_size)) in *.
  assert (bs <> 0)%nat as Hbs by (unfold bs; lia).
  assert (p / bs < nb)%nat as Hj.
  { apply Nat.Div0.div_lt_upper_bound. lia. }
  exists (nb - S (p / bs))%nat. unfold batches. fold bs nb.
  replace nb with (p / bs + S (nb - S (p / bs)))%nat at 1 by lia.
  rewrite seq_app, map_app. cbn [seq map]. reflexivity.
Qed.

Lemma kept_before_lt (l : list Example) (p : nat) x :
  l !! p = Some x -> keep_example x = true ->
  (kept_before l p < length (List.filter keep_example l))%nat.
Proof.
  intros Hp Hx. unfold kept_before.
  rewrite <- (take_drop_middle l p x Hp) at 2.
  rewrite List.filter_app, length_app. cbn [List.filter]. rewrite Hx.
  cbn [length]. lia.
Qed.

Lemma kept_before_mono (l : list Example) (p p' : nat) x :
  (p < p')%nat -> l !! p = Some x -> keep_example x = true ->
  (kept_before l p < kept_before l p')%nat.
Proof.
  intros Hlt Hp Hx. unfold kept_before.
  assert (take p' l !! p = Some x) as Hp'
    by (by rewrite lookup_take_lt).
  pose proof (kept_before_lt (take p' l) p x Hp' Hx) as Hk.
  unfold kept_before in Hk. rewrite take_take in Hk.
  by replace (p `min` p')%nat with p in Hk by lia.
Qed.

Lemma kept_before_onto (l : list Example) (k : nat) :
  (k < length (List.filter keep_example l))%nat ->
  exists p x,
    l !! p = Some x /\ keep_example x = true /\ kept_before l p = k.
Proof.
  induction l as [|y l IH] using rev_ind; [cbn; lia|].
  rewrite List.filter_app, length_app. intros Hk.
  destruct (decide (k < length (List.filter keep_example l))%nat) as [Hlt|Hge].
  - destruct (IH Hlt) as (p & x & Hp & Hx & Hkept).
    exists p, x. split_and!; [|done|].
    + by apply lookup_app_l_Some.
    + unfold kept_before in *.
      rewrite take_app_le; [done|]. apply lookup_lt_Some in Hp. lia.
  - cbn [List.filter] in Hk. destruct (keep_example y) eqn:Hy; [|cbn in Hk; lia].
    cbn in Hk. exists (length l), y. split_and!; [|done|].
    + by apply list_lookup_middle.
    + unfold kept_before. rewrite take_app_length. lia.
Qed.

Lemma kept_before_all (l : list Example) (p : nat) :
  (forall x, x ∈ l -> keep_example x = true) ->
  (p <= length l)%nat -> kept_before l p = p.
Proof.
  intros Hall Hp. unfold kept_before.
  assert (List.filter keep_example (take p l) = take p l) as ->.
  { apply forallb_filter_id, forallb_forall. intros x Hx%list_elem_of_In.
    apply elem_of_take in Hx as (i & Hi & _).
    apply Hall. by eapply list_elem_of_lookup_2. }
  by apply length_take_le.
Qed.

Section EvaluatePositions.
Context {F : Type} `{PyFloat F}.
Variable beam : tensor -> tensor -> tensor -> BeamResults F.
Hypothesis beam_ok : beam_well_formed beam.

Lemma summary_at_position tokenizer batch_size (dataset : list Example) p x :
  0 < batch_size ->
  dataset !! p = Some x ->
  keep_example x = true ->
  exists tokens,
    summary_of_position beam tokenizer batch_size dataset p = OK tokens /\
    concat (map (summaries_of beam tokenizer) (batches batch_size dataset))
      !! kept_before dataset p = Some tokens.
Proof.
  intros Hpos Hp Hx.
  destruct (batches_split batch_size dataset p Hpos (lookup_lt_Some _ _ _ Hp))
    as [k Hsplit].
  unfold summary_of_position. cbn zeta in *.
  set (bs := Z.to_nat batch_size) in *.
  set (j := (p / bs)%nat) in *. set (o := (p mod bs)%nat).
  set (data := take bs (drop (j * bs)%nat dataset)) in *.
  assert (bs <> 0)%nat as Hbs by (unfold bs; lia).
  assert (p = j * bs + o)%nat as Hdm.
  { unfold j, o. rewrite (Nat.div_mod_eq p bs) at 1. lia. }
  assert (o < bs)%nat as Ho by (by apply Nat.mod_upper_bound).
  assert (data !! o = Some x) as Hdata.
  { unfold data. rewrite lookup_take_lt, lookup_drop by done. by rewrite <- Hdm. }
  destruct (summaries_of_spec beam beam_ok tokenizer data) as [Hsum Hlen].
  pose proof (kept_before_lt data o x Hdata Hx) as Hr.
  rewrite <- Hlen in Hr.
  destruct (lookup_lt_is_Some_2 _ _ Hr) as [tokens Htokens].
  exists tokens. split.
  - rewrite Hsum. run_binds. unfold list_get. by rewrite Htokens.
  - rewrite Hsplit, map_app, concat_app. cbn [map concat].
    assert (kept_before dataset p
            = length (concat (map (summaries_of beam tokenizer)
                        (map (fun i => take bs (drop (i * bs)%nat dataset))
                             (seq 0 j))))
              + kept_before data o)%nat as ->.
    { rewrite (summaries_concat_length beam beam_ok), concat_chunks_prefix.
      unfold kept_before, data. rewrite take_take.
      replace (o `min` bs)%nat with o by lia.
      rewrite Hdm, <- take_take_drop, List.filter_app, length_app. reflexivity. }
    rewrite lookup_app_r by lia.
    replace (_ + kept_before data o - _)%nat with (kept_before data o) by lia.
    by rewrite lookup_app_l.
Qed.
End EvaluatePositions.

(** *** What [evaluate] writes *)

Lemma kept_before_drop (l : list Example) (p q : nat) y :
  (q < p)%nat -> (p <= length l)%nat ->
  l !! q = Some y -> empty_raw y = true ->
  (kept_before l p < p)%nat.
Proof.
  intros Hq Hp Hy Hdrop. unfold kept_before.
  rewrite filter_kept_count, length_take_le by done.
  assert (In y (List.filter empty_raw (take p l))) as Hin.
  { apply List.filter_In. split; [|exact Hdrop].
    apply list_elem_of_In, (list_elem_of_lookup_2 _ q).
    by rewrite lookup_take_lt. }
  destruct (List.filter empty_raw (take p l)); [done|cbn; lia].
Qed.

Lemma evaluate_kept_files {F : Type} `{PyFloat F}
    (beam : tensor -> tensor -> tensor -> BeamResults F)
    (args : Args) (tokenizer : Tokenizer) (path_to_summaries : string)
    (CPU_COUNT : Z) (eval_dataset : list Example) (fs : gmap string string) :
  2 <= CPU_COUNT ->
  0 < eval_batch_size args ->
  beam_well_formed beam ->
  let kept := length (List.filter keep_example eval_dataset) in
  exists st,
    evaluate beam args tokenizer path_to_summaries CPU_COUNT eval_dataset fs
      = OK st /\
    idx_summary st = Z.of_nat kept /\
    (forall p x,
       eval_dataset !! p = Some x -> keep_example x = true ->
       exists tokens,
         summary_of_position beam tokenizer (eval_batch_size args)
           eval_dataset p = OK tokens /\
         files st !! summary_path path_to_summaries
                       (kept_before eval_dataset p)
         = Some (summary_file_content tokens tokenizer)) /\
    (forall q,
       (forall k, (k < kept)%nat -> q <> summary_path path_to_summaries k) ->
       files st !! q = fs !! q).
Proof.
  intros Hcpu Hbs Hbeam kept.
  set (all := concat (map (summaries_of beam tokenizer)
                        (batches (eval_batch_size args) eval_dataset))).
  assert (length all = kept) as Hall.
  { unfold all. rewrite (summaries_concat_length beam Hbeam).
    by rewrite batches_cover. }
  destruct (write_summaries_spec tokenizer path_to_summaries all
              (mkEvalState 0 fs) 0 eq_refl) as (Hidx & Hfiles & Hother).
  cbn zeta in *. rewrite Hall in *. cbn [Nat.add files] in *.
  exists (fold_left (write_summary tokenizer path_to_summaries) all
            (mkEvalState 0 fs)).
  split_and!.
  - unfold evaluate, DataLoader_init. fold (eval_batch_size args).
    assert ((eval_batch_size args <=? 0) = false) as -> by lia.
    assert ((CPU_COUNT - 2 <? 0) = false) as -> by lia.
    run_binds. apply (eval_loop_spec beam Hbeam).
  - exact Hidx.
  - intros p x Hp Hx.
    destruct (summary_at_position beam Hbeam tokenizer (eval_batch_size args)
                eval_dataset p x Hbs Hp Hx) as (tokens & Hsummary & Hlookup).
    exists tokens. split; [exact Hsummary|]. by apply Hfiles.
  - intros q Hq. apply Hother. intros k Hk. apply Hq. lia.
Qed.

(** *** What [create_evaluation_set] writes *)

Lemma original_path_inj path (i j : Z) :
  original_path path i = original_path path j -> i = j.
Proof.
  unfold original_path. intros Heq.
  apply (inj (String.append path)) in Heq.
  apply (inj (String.append "/original_")) in Heq.
  apply append_cancel_right in Heq.
  by apply (inj pretty) in Heq.
Qed.

Lemma write_originals_spec {A} path (dataset : list (A * list string))
    (i : Z) (fs : gmap string string) :
  (forall k item,
     dataset !! k = Some item ->
     write_originals path i dataset fs !! original_path path (i + Z.of_nat k)
     = Some (join newline (snd item))) /\
  (forall q,
     (forall k, (k < length dataset)%nat ->
                q <> original_path path (i + Z.of_nat k)) ->
     write_originals path i dataset fs !! q = fs !! q).
Proof.
  revert i fs. induction dataset as [|[a summary_lines] rest IH]; intros i fs.
  - split; [intros k item Hk; discriminate|done].
  - cbn [write_originals].
    destruct (IH (i + 1)
                (<[original_path path i := join newline summary_lines]> fs))
      as [IHfiles IHother].
    split.
    + intros [|k] item Hk.
      * injection Hk as <-. rewrite Z.add_0_r.
        rewrite IHother; [apply lookup_insert_eq|].
        intros k _ Heq%original_path_inj. lia.
      * replace (i + Z.of_nat (S k)) with (i + 1 + Z.of_nat k) by lia.
        by apply IHfiles.
    + intros q Hq. rewrite IHother.
      * apply lookup_insert_ne. intros <-. apply (Hq 0%nat); [cbn; lia|].
        by rewrite Z.add_0_r.
      * intros k Hk. replace (i + 1 + Z.of_nat k) with (i + Z.of_nat (S k))
          by lia.
        apply Hq. cbn. lia.
Qed.

(** C8 fails on the code.  When at least two CPUs are available, the batch
    size is positive and the beam search returns a result for every row,
    [evaluate] goes through the dataset in its order, but it numbers the
    files with a running count of the summaries it has written, not with
    the position of the example: the batch assembler drops the examples
    with an empty side before [summarize] sees them, so the example at
    position [p] is written to [model_k.txt], where [k] counts the kept
    examples before [p], with its decoded sentences joined by newlines.
    After an example with an empty side [k] is less than [p]: the summary
    of the example at position [p] is not in [model_p.txt], while
    [create_evaluation_set] writes its reference to [original_p.txt].  The
    indices [k] are distinct for distinct kept examples and run from 0 to
    the number of kept examples without gap, distinct indices give
    distinct files, and no other file is touched; [k] is the position [p]
    only when no example has an empty side. *)
Theorem evaluate_writes_summaries :
  forall (F : Type) (ops : PyFloat F)
         (beam : tensor -> tensor -> tensor -> BeamResults F)
         (args : Args) (tokenizer : Tokenizer) (path_to_summaries : string)
         (CPU_COUNT : Z) (eval_dataset : list Example)
         (fs : gmap string string),
    2 <= CPU_COUNT ->
    0 < eval_batch_size args ->
    beam_well_formed beam ->
    let kept := length (List.filter keep_example eval_dataset) in
    exists st,
      evaluate beam args tokenizer path_to_summaries CPU_COUNT eval_dataset fs
        = OK st /\
      idx_summary st = Z.of_nat kept /\
      (forall p x,
         eval_dataset !! p = Some x -> keep_example x = true ->
         (kept_before eval_dataset p < kept)%nat /\
         exists tokens,
           summary_of_position beam tokenizer (eval_batch_size args)
             eval_dataset p = OK tokens /\
           files st !! summary_path path_to_summaries
                         (kept_before eval_dataset p)
           = Some (summary_file_content tokens tokenizer)) /\
      (forall p p' x,
         (p < p')%nat -> eval_dataset !! p = Some x -> keep_example x = true ->
         (kept_before eval_dataset p < kept_before eval_dataset p')%nat) /\
      (forall k,
         (k < kept)%nat ->
         exists p x,
           eval_dataset !! p = Some x /\ keep_example x = true /\
           kept_before eval_dataset p = k) /\
      (forall i j,
         summary_path path_to_summaries i = summary_path path_to_summaries j ->
         i = j) /\
      (forall q,
         (forall k, (k < kept)%nat -> q <> summary_path path_to_summaries k) ->
         files st !! q = fs !! q) /\
      ((forall x, x ∈ eval_dataset -> keep_example x = true) ->
       forall p, (p <= length eval_dataset)%nat ->
                 kept_before eval_dataset p = p) /\
      (forall p q x y,
         (q < p)%nat ->
         eval_dataset !! p = Some x ->
         eval_dataset !! q = Some y -> empty_raw y = true ->
         (kept_before eval_dataset p < p)%nat) /\
      (forall (A : Type) (references : list (A * list string))
              (path_to_formatted_summaries : string)
              (fs' : gmap string string) p reference,
         references !! p = Some reference ->
         create_evaluation_set path_to_formatted_summaries references fs'
           !! original_path path_to_formatted_summaries (Z.of_nat p)
         = Some (join newline (snd reference))).
Proof.
  intros F ops beam args tokenizer path CPU_COUNT dataset fs
    Hcpu Hbs Hbeam kept.
  destruct (evaluate_kept_files beam args tokenizer path CPU_COUNT dataset fs
              Hcpu Hbs Hbeam) as (st & Hevaluate & Hidx & Hfiles & Hother).
  exists st. split_and!; try done.
  - intros p x Hp Hx. split; [by apply (kept_before_lt _ _ x)|].
    by apply (Hfiles p x).
  - intros p p' x. apply kept_before_mono.
  - apply kept_before_onto.
  - apply summary_path_inj.
  - intros Hkeep p Hp. by apply kept_before_all.
  - intros p q x y Hq Hp Hy Hdrop.
    apply (kept_before_drop dataset p q y); try done.
    apply lookup_lt_Some in Hp. lia.
  - intros A references path' fs' p reference Hp.
    unfold create_evaluation_set.
    destruct (write_originals_spec path' references 0 fs') as [Hrefs _].
    by apply (Hrefs p reference).
Qed.

Lemma sample_beam_well_formed : beam_well_formed sample_beam.
Proof.
  intros source token_type_ids mask. cbn zeta. unfold sample_beam.
  cbn [scores predictions]. split; [by rewrite length_map|].
  induction source as [|row source IH]; cbn [map]; constructor; auto.
Qed.

(** Three examples in batches of two, the second one without story: the
    summary of the example at position 2 is written to [model_1.txt], no
    file [model_2.txt] exists after the run, and the reference of the item
    at position 2 is written to [original_2.txt]. *)
Lemma evaluate_writes_summaries_witness :
  exists st tokens,
    evaluate sample_beam sample_eval_args sample_tokenizer "out" 4
      sample_eval_dataset ∅ = OK st /\
    idx_summary st = 2 /\
    sample_eval_dataset !! 2%nat = Some ("b."%string, "z"%string) /\
    summary_of_position sample_beam sample_tokenizer 2 sample_eval_dataset 2
      = OK tokens /\
    files st !! "out/model_1.txt"%string
      = Some (summary_file_content tokens sample_tokenizer) /\
    files st !! "out/model_2.txt"%string = None /\
    create_evaluation_set "ref" [(tt, ["x"%string]); (tt, ["y"%string]);
                                 (tt, ["z"%string])] ∅
      !! "ref/original_2.txt"%string = Some "z"%string.
Proof.
  destruct (evaluate_writes_summaries fexpr fexpr_float sample_beam
              sample_eval_args sample_tokenizer "out" 4 sample_eval_dataset ∅)
    as (st & Hevaluate & Hidx & Hfiles & _ & _ & _ & Hother & _ & _ & Hrefs).
  - lia.
  - reflexivity.
  - exact sample_beam_well_formed.
  - destruct (Hfiles 2%nat ("b."%string, "z"%string) eq_refl eq_refl)
      as (_ & tokens & Htokens & Hfile).
    exists st, tokens. split_and!; [done..| |].
    + rewrite Hother; [reflexivity|].
      intros [|[|k]] Hk; [discriminate..|cbn in Hk; lia].
    + exact (Hrefs unit [(tt, ["x"%string]); (tt, ["y"%string]);
                         (tt, ["z"%string])]
               "ref"%string ∅ 2%nat (tt, ["z"%string]) eq_refl).
Defined.

(** The failing input of C8, computed: the example at position 2 is written
    to [model_1.txt], and no file [model_2.txt] exists after the run. *)
Lemma evaluate_shifts_indices_counterexample :
  sample_eval_dataset !! 2%nat = Some ("b."%string, "z"%string) /\
  match
    evaluate sample_beam sample_eval_args sample_tokenizer "out" 4
      sample_eval_dataset ∅,
    summary_of_position sample_beam sample_tokenizer 2 sample_eval_dataset 2
  with
  | OK st, OK tokens =>
      files st !! "out/model_2.txt"%string = None /\
      files st !! "out/model_1.txt"%string
        = Some (summary_file_content tokens sample_tokenizer)
  | _, _ => False
  end.
Proof. split; [reflexivity|]. vm_compute. split; reflexivity. Qed.

(** ** decode_summary in the files of [evaluate] *)

Lemma period_beam_well_formed : beam_well_formed period_beam.
Proof.
  intros source token_type_ids mask. cbn zeta. unfold period_beam.
  cbn [scores predictions]. split; [by rewrite length_map|].
  induction source as [|row source IH]; cbn [map]; constructor; auto.
Qed.

(** C10: [decode_summary] returns the fragments of the decoded text between
    the periods, each followed by a period: the fragments joined by ['.']
    give back the text and none contains a period, so every element of the
    list ends with ['.'].  When the decoded text ends with ['.'] the last
    element is exactly ["."].  Every file that [evaluate] writes holds the
    elements that [decode_summary] returns for the summary of a kept
    example, joined by newlines, so that the last line of the file of a
    summary whose text ends with ['.'] is that lone period. *)
Theorem decode_summary_periods :
  forall (F : Type) (ops : PyFloat F)
         (beam : tensor -> tensor -> tensor -> BeamResults F)
         (args : Args) (tokenizer : Tokenizer) (path_to_summaries : string)
         (CPU_COUNT : Z) (eval_dataset : list Example)
         (fs : gmap string string),
    (forall summary_tokens : list Z,
       (exists fragments,
          decode_summary summary_tokens tokenizer
            = map (fun s => (s ++ ".")%string) fragments /\
          join "." fragments = decode tokenizer summary_tokens /\
          forall f, f ∈ fragments -> occurs dot f = false) /\
       (forall s, s ∈ decode_summary summary_tokens tokenizer ->
          endswith s "." = true) /\
       (endswith (decode tokenizer summary_tokens) "." = true ->
          last (decode_summary summary_tokens tokenizer) = Some "."%string /\
          last (lines (summary_file_content summary_tokens tokenizer))
            = Some "."%string)) /\
    (2 <= CPU_COUNT ->
     0 < eval_batch_size args ->
     beam_well_formed beam ->
     let kept := length (List.filter keep_example eval_dataset) in
     exists st,
       evaluate beam args tokenizer path_to_summaries CPU_COUNT eval_dataset
         fs = OK st /\
       idx_summary st = Z.of_nat kept /\
       (forall k,
          (k < kept)%nat ->
          exists p x,
            eval_dataset !! p = Some x /\ keep_example x = true /\
            kept_before eval_dataset p = k) /\
       (forall p x,
          eval_dataset !! p = Some x -> keep_example x = true ->
          exists tokens content,
            summary_of_position beam tokenizer (eval_batch_size args)
              eval_dataset p = OK tokens /\
            files st !! summary_path path_to_summaries
                          (kept_before eval_dataset p) = Some content /\
            content = join newline (decode_summary tokens tokenizer) /\
            (endswith (decode tokenizer tokens) "." = true ->
             last (lines content) = Some "."%string))).
Proof.
  intros F ops beam args tokenizer path CPU_COUNT dataset fs.
  assert (forall summary_tokens prefix,
            decode tokenizer summary_tokens = (prefix ++ ".")%string ->
            last (lines (join newline
                           (decode_summary summary_tokens tokenizer)))
            = Some "."%string) as Hlast.
  { intros summary_tokens prefix Htext.
    pose proof (decode_summary_trailing_dot _ _ _ Htext) as Hlist.
    unfold lines. rewrite Hlist, join_snoc; cycle 1.
    { intros Hnil%(f_equal length). rewrite length_map in Hnil.
      destruct (split dot prefix) eqn:Hsplit; [|discriminate].
      by destruct (split_nonempty dot prefix). }
    change (newline ++ ".")%string with (String "010"%char ".").
    rewrite split_app_sep. change (split "010"%char ".") with ["."%string].
    apply last_snoc. }
  split.
  - intros summary_tokens. split_and!.
    + exists (split dot (decode tokenizer summary_tokens)). split_and!.
      * reflexivity.
      * apply join_split.
      * intros f. apply split_fragments_no_sep.
    + intros s Hs. unfold decode_summary in Hs.
      apply list_elem_of_fmap in Hs as (f & -> & _).
      apply endswith_iff. by exists f.
    + intros [prefix Htext]%endswith_iff. split.
      * rewrite (decode_summary_trailing_dot _ _ _ Htext). apply last_snoc.
      * by apply (Hlast summary_tokens prefix).
  - intros Hcpu Hbs Hbeam kept.
    destruct (evaluate_kept_files beam args tokenizer path CPU_COUNT dataset
                fs Hcpu Hbs Hbeam) as (st & Hevaluate & Hidx & Hfiles & _).
    exists st. split_and!; try done.
    + apply kept_before_onto.
    + intros p x Hp Hx.
      destruct (Hfiles p x Hp Hx) as (tokens & Htokens & Hfile).
      exists tokens, (summary_file_content tokens tokenizer).
      split_and!; try done.
      intros [prefix Htext]%endswith_iff.
      by apply (Hlast tokens prefix).
Qed.

(** The summary whose text is ["a."]: its list is ["a."; "."], and the file
    written for the example at position 2 of the sample dataset ends with
    the line ["."]. *)
Lemma decode_summary_periods_witness :
  last (decode_summary [97; 46] sample_tokenizer) = Some "."%string /\
  exists st content,
    evaluate period_beam sample_eval_args sample_tokenizer "out" 4
      sample_eval_dataset ∅ = OK st /\
    files st !! "out/model_1.txt"%string = Some content /\
    last (lines content) = Some "."%string.
Proof.
  destruct (decode_summary_periods fexpr fexpr_float period_beam
              sample_eval_args sample_tokenizer "out" 4 sample_eval_dataset ∅)
    as [Hdecode Hevaluate].
  split; [by apply (Hdecode [97; 46])|].
  destruct Hevaluate as (st & Hst & _ & _ & Hfiles);
    [lia|reflexivity|exact period_beam_well_formed|].
  destruct (Hfiles 2%nat ("b."%string, "z"%string) eq_refl eq_refl)
    as (tokens & content & Htokens & Hfile & _ & Hlast).
  exists st, content. split_and!; try done.
  apply Hlast. vm_compute in Htokens. by injection Htokens as <-.
Defined.

(** * Further properties *)

(** ** BertSumOptimizer: life cycle *)

Section OptimizerLifeCycle.
Context {F : Type} `{PyFloat F}.

Lemma step_inversion (self self' : BertSumOptimizer F) o1 o2 :
  optimizers self = [("encoder"%string, o1); ("decoder"%string, o2)] ->
  step self = OK self' ->
  exists re rd,
    _update_rate (incr_step self) "encoder" = OK re /\
    _update_rate (incr_step self) "decoder" = OK rd /\
    self' = mkBertSumOptimizer (encoder self) (decoder self) (lr self)
              (warmup_steps self)
              [("encoder"%string, Adam_step (Adam_set_lr re o1));
               ("decoder"%string, Adam_step (Adam_set_lr rd o2))]
              (_step self + 1)
              (<["decoder"%string := rd]>
                 (<["encoder"%string := re]> (current_learning_rates self))).
Proof.
  intros Hopts. unfold step. cbn [optimizers incr_step]. rewrite Hopts.
  cbn [step_loop].
  destruct (_update_rate (incr_step self) "encoder") as [re|e] eqn:He;
    [|discriminate].
  run_binds.
  destruct (_update_rate (incr_step self) "decoder") as [rd|e] eqn:Hd;
    [|discriminate].
  run_binds. cbn. intros [= <-]. by exists re, rd.
Qed.

Lemma init_in_lockstep model (lr0 : gmap string F) warmup0 self0 :
  __init__ model lr0 warmup0 = OK self0 ->
  in_lockstep model lr0 warmup0 0 self0.
Proof.
  unfold __init__, dict_get.
  destruct (lr0 !! "encoder"%string) as [be|] eqn:Hbe; [|discriminate].
  destruct (lr0 !! "decoder"%string) as [bd|] eqn:Hbd; [|discriminate].
  run_binds. intros [= <-]. constructor; cbn; try done.
  exists (Adam_init be), (Adam_init bd), be, bd. by split_and!.
Qed.

Lemma step_in_lockstep model (lr0 : gmap string F) warmup0 n self self' :
  in_lockstep model lr0 warmup0 n self ->
  step self = OK self' ->
  in_lockstep model lr0 warmup0 (S n) self'.
Proof.
  intros [Henc Hdec Hlr Hw Hstep (oe & od & re & rd & Hopts & Hue & Hud
                                   & Hpe & Hpd & _)] Hs.
  destruct (step_inversion self self' oe od Hopts Hs)
    as (re' & rd' & _ & _ & ->).
  constructor; cbn; try done; [lia|].
  eexists _, _, re', rd'. split; [reflexivity|]. cbn.
  rewrite Hue, Hud, Hpe, Hpd. split_and!; try done.
  - rewrite lookup_insert_ne by done. apply lookup_insert_eq.
  - apply lookup_insert_eq.
Qed.

Lemma steps_in_lockstep model (lr0 : gmap string F) warmup0 k n self self' :
  in_lockstep model lr0 warmup0 k self ->
  steps n self = OK self' ->
  in_lockstep model lr0 warmup0 (k + n) self'.
Proof.
  revert k self. induction n as [|n IH]; intros k self Hk; cbn [steps].
  - intros [= <-]. by rewrite Nat.add_0_r.
  - destruct (step self) as [self1|e] eqn:Hstep; [|discriminate].
    run_binds. intros Hsteps.
    replace (k + S n)%nat with (S k + n)%nat by lia.
    apply (IH (S k) self1); [|done]. by apply (step_in_lockstep _ _ _ k self).
Qed.

End OptimizerLifeCycle.



(** X2: the two Adam optimizers advance in lockstep with the shared
    counter.  After [n] calls of [step] that returned, the counter is [n],
    each optimizer has applied [n] updates, the learning rate of its single
    parameter group is the current learning rate recorded for its group
    (its constructor rate before the first call), and the encoder, the
    decoder, the base rates and the warm-up table are those given to the
    constructor. *)
Theorem steps_keep_lockstep :
  forall (F : Type) (ops : PyFloat F) (model : Model)
         (lr0 : gmap string F) (warmup0 : gmap string Z)
         (self0 self : BertSumOptimizer F) (n : nat),
    __init__ model lr0 warmup0 = OK self0 ->
    steps n self0 = OK self ->
    in_lockstep model lr0 warmup0 n self.
Proof.
  intros F ops model lr0 warmup0 self0 self n Hinit Hsteps.
  apply (steps_in_lockstep model lr0 warmup0 0 n self0 self); [|done].
  by apply init_in_lockstep.
Qed.

Lemma steps_keep_lockstep_witness :
  exists self,
    steps 2 (sample_optimizer paper_warmup) = OK self /\
    in_lockstep bert_abs paper_rates paper_warmup 2 self.
Proof.
  eexists. split; [reflexivity|].
  apply (steps_keep_lockstep fexpr fexpr_float bert_abs paper_rates
           paper_warmup (sample_optimizer paper_warmup)); reflexivity.
Defined.

(** ** decode_summary: what the sentences add up to *)

Lemma append_empty_right (s : string) : (s ++ "")%string = s.
Proof. induction s as [|c s IH]; [reflexivity|]. by rewrite append_cons, IH. Qed.

Lemma join_empty_cons (x : string) (l : list string) :
  join "" (x :: l) = (x ++ join "" l)%string.
Proof.
  unfold join. destruct l as [|y l]; cbn [String.concat].
  - by rewrite append_empty_right.
  - reflexivity.
Qed.

Lemma sentences_concat (s : string) :
  join "" (map (fun f => (f ++ ".")%string) (split dot s)) = (s ++ ".")%string.
Proof.
  induction s as [|c s IH]; [reflexivity|]. cbn [split].
  destruct (Ascii.eqb c dot) eqn:Hc.
  - apply Ascii.eqb_eq in Hc as ->. cbn [map].
    rewrite join_empty_cons, IH. reflexivity.
  - destruct (split dot s) as [|first others] eqn:Hsplit;
      [by destruct (split_nonempty dot s)|].
    cbn [map] in *. rewrite join_empty_cons in *.
    rewrite !append_cons, IH. reflexivity.
Qed.

Lemma split_length (sep : ascii) (s : string) :
  length (split sep s) = S (count_char sep s).
Proof.
  induction s as [|c s IH]; [reflexivity|]. cbn [split count_char].
  destruct (Ascii.eqb c sep); cbn [length]; [by rewrite IH|].
  destruct (split sep s); cbn [length] in *; lia.
Qed.

(** X3: the sentences of [decode_summary] lose nothing of the decoded text:
    put end to end they give the text followed by one more period, and
    there is one sentence more than the text has periods (so the list is
    never empty, and a text without period comes back as one sentence). *)
Theorem decode_summary_adds_up :
  forall (summary_tokens : list Z) (tokenizer : Tokenizer),
    join "" (decode_summary summary_tokens tokenizer)
      = (decode tokenizer summary_tokens ++ ".")%string /\
    length (decode_summary summary_tokens tokenizer)
      = S (count_char dot (decode tokenizer summary_tokens)).
Proof.
  intros summary_tokens tokenizer. unfold decode_summary. split.
  - apply sentences_concat.
  - rewrite length_map. apply split_length.
Qed.

(** X4: whatever the tokens, the text that [evaluate] writes for a summary
    is not empty and ends with a period. *)
Theorem summary_file_ends_with_period :
  forall (summary_tokens : list Z) (tokenizer : Tokenizer),
    endswith (summary_file_content summary_tokens tokenizer) "." = true /\
    summary_file_content summary_tokens tokenizer <> ""%string.
Proof.
  intros summary_tokens tokenizer.
  assert (exists prefix,
            summary_file_content summary_tokens tokenizer
            = (prefix ++ ".")%string) as [prefix Hcontent].
  { unfold summary_file_content, decode_summary.
    destruct (split dot (decode tokenizer summary_tokens)) as [|f l] eqn:Hsplit
      using rev_ind; [by destruct (split_nonempty dot (decode tokenizer summary_tokens))|].
    clear IHl. rewrite map_app. cbn [map].
    destruct l as [|g l].
    - exists f. reflexivity.
    - rewrite join_snoc by done. eexists.
      by rewrite <- !append_associative. }
  split; [apply endswith_iff; eauto|].
  rewrite Hcontent. by destruct prefix.
Qed.

(** ** collate: batches of concatenated inputs *)

(** X5: collating a list made of two parts gives the batch of the first part
    followed, tensor by tensor, by the batch of the second: a row depends on
    its own pair only, and the order of the pairs is kept. *)
Theorem collate_app :
  forall (data1 data2 : list Example) (tokenizer : Tokenizer)
         (block_size : nat),
    exists b1 b2,
      collate data1 tokenizer block_size = OK b1 /\
      collate data2 tokenizer block_size = OK b2 /\
      collate (data1 ++ data2) tokenizer block_size = OK (batch_app b1 b2).
Proof.
  intros data1 data2 tokenizer block_size.
  eexists _, _. split; [apply collate_returns|].
  split; [apply collate_returns|].
  rewrite collate_returns. unfold batch_app. cbn.
  unfold compute_token_type_ids, build_mask, build_lm_labels.
  by rewrite List.filter_app, !map_app.
Qed.

(** X6: a pair with an empty side has no influence on the batch: removing
    it from the input, wherever it stands, gives the same batch. *)
Theorem collate_ignores_empty_pair :
  forall (data1 data2 : list Example) (x : Example) (tokenizer : Tokenizer)
         (block_size : nat),
    empty_raw x = true ->
    collate (data1 ++ x :: data2) tokenizer block_size
    = collate (data1 ++ data2) tokenizer block_size.
Proof.
  intros data1 data2 x tokenizer block_size Hx.
  rewrite !collate_returns. cbn zeta.
  rewrite !List.filter_app. cbn [List.filter].
  unfold empty_raw in Hx. by destruct (keep_example x).
Qed.

Lemma collate_ignores_empty_pair_witness :
  collate [("a"%string, "x"%string); ("b"%string, ""%string);
           ("c"%string, "y"%string)] sample_tokenizer 8
  = collate [("a"%string, "x"%string); ("c"%string, "y"%string)]
            sample_tokenizer 8.
Proof.
  apply (collate_ignores_empty_pair [("a"%string, "x"%string)]
           [("c"%string, "y"%string)] ("b"%string, ""%string)
           sample_tokenizer 8).
  reflexivity.
Defined.

(** ** train: counters and schedule *)

Lemma div_succ (a g : Z) :
  0 < g -> 0 <= a ->
  (a + 1) / g = a / g + (if (a + 1) mod g =? 0 then 1 else 0).
Proof.
  intros Hg Ha.
  pose proof (Z.div_mod (a + 1) g ltac:(lia)) as Hdm.
  pose proof (Z.mod_pos_bound (a + 1) g Hg) as Hmod.
  destruct ((a + 1) mod g =? 0) eqn:Hz.
  - assert (a / g = (a + 1) / g - 1); [|lia].
    symmetry. apply (Z.div_unique a g _ (g - 1)); lia.
  - assert (a / g = (a + 1) / g); [|lia].
    symmetry. apply (Z.div_unique a g _ ((a + 1) mod g - 1)); lia.
Qed.

Lemma window_ends_seq (g : Z) (n : nat) :
  0 < g -> Z.of_nat (window_ends g (seq 0 n)) = Z.of_nat n / g.
Proof.
  intros Hg. unfold window_ends. induction n as [|n IH].
  - cbn. by rewrite Z.div_0_l by lia.
  - rewrite seq_S, List.filter_app, length_app, Nat2Z.inj_add, IH.
    cbn [List.filter Nat.add].
    replace (Z.of_nat (S n)) with (Z.of_nat n + 1) by lia.
    rewrite (div_succ (Z.of_nat n) g) by lia.
    by destruct ((Z.of_nat n + 1) mod g =? 0).
Qed.

Lemma batches_processed_app (tr1 tr2 : list event) :
  batches_processed (tr1 ++ tr2)
  = (batches_processed tr1 + batches_processed tr2)%nat.
Proof. unfold batches_processed. by rewrite List.filter_app, length_app. Qed.

Section TrainCounting.
Context {F : Type} `{PyFloat F}.
Variable forward_loss : nat -> nat -> F.
Variable model : Model.

Lemma step_counter (self self' : BertSumOptimizer F) :
  step self = OK self' -> _step self' = _step self + 1.
Proof.
  unfold step.
  destruct (step_loop _ _ _ _) as [[opts rates]|e]; [|discriminate].
  run_binds. by intros [= <-].
Qed.

Lemma monitoring_inv args (st st' : TrainState F) :
  monitoring args st = OK st' ->
  optimizer st' = optimizer st /\
  global_step st' = global_step st /\
  (trace st' = trace st \/ trace st' = trace st ++ [EvLog (global_step st)]).
Proof.
  unfold monitoring.
  destruct (is_monitoring_process args && (logging_steps args >? 0));
    [|by intros [= <-]; auto].
  destruct (py_mod _ _) as [r|e]; [|discriminate]. run_binds.
  destruct (r =? 0); [|by intros [= <-]; auto].
  destruct (dict_get _ "encoder"); [|discriminate]. run_binds.
  destruct (dict_get _ "decoder"); [|discriminate]. run_binds.
  intros [= <-]. cbn. auto.
Qed.

Lemma batch_body_counters args epoch step_no (st st' : TrainState F) :
  batch_body forward_loss args epoch step_no st = OK st' ->
  counters_agree st -> counters_agree st'.
Proof.
  unfold batch_body, counters_agree.
  destruct (py_mod _ _) as [r|e]; [|discriminate]. run_binds.
  destruct (r =? 0).
  - cbn [optimizer global_step trace tr_loss logging_loss].
    destruct (step (optimizer st)) as [self'|e] eqn:Hstep; [|discriminate].
    run_binds. intros (Hopt & Hgs & Htrace)%monitoring_inv [Hc Ht].
    cbn [optimizer global_step trace] in *.
    rewrite Hopt, Hgs, (step_counter _ _ Hstep).
    split; [lia|].
    destruct Htrace as [-> | ->]; rewrite !optimizer_steps_app; cbn; lia.
  - intros [= <-] [Hc Ht]. cbn [optimizer global_step trace].
    rewrite optimizer_steps_app. cbn. split; lia.
Qed.

Lemma inner_loop_counters args epoch (todo : list nat) (st st' : TrainState F) :
  inner_loop forward_loss args epoch todo st = OK st' ->
  counters_agree st -> counters_agree st'.
Proof.
  revert st. induction todo as [|s todo IH]; intros st; cbn [inner_loop].
  - by intros [= <-].
  - destruct (batch_body _ _ _ _ _) as [st1|e] eqn:Hbody; [|discriminate].
    run_binds. intros Hloop Hst.
    pose proof (batch_body_counters _ _ _ _ _ Hbody Hst) as Hst1.
    destruct (stop args st1); [by injection Hloop as <-|by apply (IH st1)].
Qed.

Lemma epoch_loop_counters args (len_dataloader : nat) (todo : list nat)
    (st st' : TrainState F) :
  epoch_loop forward_loss args len_dataloader todo st = OK st' ->
  counters_agree st -> counters_agree st'.
Proof.
  revert st. induction todo as [|e todo IH]; intros st; cbn [epoch_loop].
  - by intros [= <-].
  - destruct (inner_loop _ _ _ _ _) as [st1|err] eqn:Hinner; [|discriminate].
    run_binds. intros Hloop Hst.
    pose proof (inner_loop_counters _ _ _ _ _ Hinner Hst) as Hst1.
    destruct (stop args st1); [by injection Hloop as <-|by apply (IH st1)].
Qed.
End TrainCounting.

Section TrainSchedule.
Context {F : Type} `{PyFloat F}.
Variable forward_loss : nat -> nat -> F.
Variable model : Model.

Lemma batch_body_counts args epoch step_no (st : TrainState F) :
  gradient_accumulation_steps args <> 0 ->
  schedulable learning_rates train_warmup_steps
    (float_lit (2 # 1000)) (float_lit (1 # 10)) 20000 10000 (optimizer st) ->
  _step (optimizer st) = global_step st ->
  let delta :=
    if (Z.of_nat step_no + 1) mod gradient_accumulation_steps args =? 0
    then 1 else 0 in
  match batch_body forward_loss args epoch step_no st with
  | OK st' =>
      schedulable learning_rates train_warmup_steps
        (float_lit (2 # 1000)) (float_lit (1 # 10)) 20000 10000
        (optimizer st') /\
      _step (optimizer st') = global_step st' /\
      global_step st' = global_step st + delta /\
      batches_processed (trace st') = S (batches_processed (trace st)) /\
      (delta = 1 -> global_step st' < float_int_bound)
  | Raise e =>
      e = OverflowError /\ delta = 1 /\
      float_int_bound <= global_step st + 1
  end.
Proof.
  intros Hgas Hsched Hcount. unfold batch_body, py_mod.
  assert ((gradient_accumulation_steps args =? 0) = false) as -> by lia.
  run_binds. cbv zeta.
  destruct (_ mod _ =? 0).
  - cbn [optimizer global_step tr_loss logging_loss trace].
    destruct (Z_lt_le_dec (_step (optimizer st) + 1) float_int_bound)
      as [Hfits|Hover]; cycle 1.
    { rewrite (step_schedulable_overflow _ _ _ _ _ _ _ Hsched Hover).
      run_binds. split_and!; [reflexivity..|lia]. }
    destruct (step_schedulable _ _ _ _ _ _ _ Hsched Hfits)
      as (self' & Hstep & Hsched' & Hcount' & He & Hd).
    rewrite Hstep. run_binds.
    match goal with
    | |- context [monitoring args ?s] =>
        destruct (monitoring_returns args s _ _ He Hd)
          as (st' & Hmon & Hopt & Hgs & Htrace)
    end.
    rewrite Hmon.
    cbn [optimizer global_step trace] in Hopt, Hgs, Htrace.
    rewrite Hopt, Hgs. split_and!; try done; try lia.
    destruct Htrace as [-> | ->]; rewrite !batches_processed_app; cbn; lia.
  - cbn [optimizer global_step trace].
    split_and!; try done; try lia.
    rewrite batches_processed_app. cbn. lia.
Qed.

Lemma stop_never args (st : TrainState F) :
  max_steps args <= 0 \/ global_step st <= max_steps args ->
  stop args st = false.
Proof.
  intros Hcap. unfold stop.
  destruct (max_steps args >? 0) eqn:Hmax; [|reflexivity]. cbn. lia.
Qed.

Lemma inner_loop_counts args epoch (todo : list nat) (st : TrainState F) :
  0 < gradient_accumulation_steps args ->
  schedulable learning_rates train_warmup_steps
    (float_lit (2 # 1000)) (float_lit (1 # 10)) 20000 10000 (optimizer st) ->
  _step (optimizer st) = global_step st ->
  global_step st < float_int_bound ->
  (max_steps args <= 0 \/
   global_step st
   + Z.of_nat (window_ends (gradient_accumulation_steps args) todo)
   <= max_steps args) ->
  match inner_loop forward_loss args epoch todo st with
  | OK st' =>
      schedulable learning_rates train_warmup_steps
        (float_lit (2 # 1000)) (float_lit (1 # 10)) 20000 10000
        (optimizer st') /\
      _step (optimizer st') = global_step st' /\
      global_step st'
      = global_step st
        + Z.of_nat (window_ends (gradient_accumulation_steps args) todo) /\
      batches_processed (trace st')
      = (batches_processed (trace st) + length todo)%nat /\
      global_step st' < float_int_bound
  | Raise e =>
      e = OverflowError /\
      float_int_bound
      <= global_step st
         + Z.of_nat (window_ends (gradient_accumulation_steps args) todo)
  end.
Proof.
  intros Hgas. revert st.
  induction todo as [|s todo IH]; intros st Hsched Hcount Hfits Hcap.
  - unfold window_ends. cbn. split_and!; try done; lia.
  - pose proof (batch_body_counts args epoch s st ltac:(lia) Hsched Hcount)
      as Hbody.
    cbv zeta in Hbody. cbn [inner_loop].
    unfold window_ends in *. cbn [List.filter] in *.
    destruct (batch_body _ _ _ _ _) as [st1|e]; run_binds.
    + destruct Hbody as (Hsched1 & Hcount1 & Hgs1 & Hb1 & Hfits1).
      destruct ((Z.of_nat s + 1) mod gradient_accumulation_steps args =? 0);
        cbn [length] in *.
      * rewrite stop_never by lia.
        specialize (IH st1 Hsched1 Hcount1 ltac:(lia) ltac:(lia)).
        destruct (inner_loop _ _ _ _ _) as [st'|e'].
        -- destruct IH as (Hs' & Hc' & Hgs' & Hb' & Hf').
           split_and!; try done; lia.
        -- destruct IH as [-> Hover]. split; [reflexivity|lia].
      * rewrite stop_never by lia.
        specialize (IH st1 Hsched1 Hcount1 ltac:(lia) ltac:(lia)).
        destruct (inner_loop _ _ _ _ _) as [st'|e'].
        -- destruct IH as (Hs' & Hc' & Hgs' & Hb' & Hf').
           split_and!; try done; lia.
        -- destruct IH as [-> Hover]. split; [reflexivity|lia].
    + destruct Hbody as (-> & Hdelta & Hover). split; [reflexivity|].
      destruct ((Z.of_nat s + 1) mod gradient_accumulation_steps args =? 0);
        cbn [length]; lia.
Qed.

Lemma epoch_loop_counts args (len_dataloader : nat) (todo : list nat)
    (st : TrainState F) :
  0 < gradient_accumulation_steps args ->
  schedulable learning_rates train_warmup_steps
    (float_lit (2 # 1000)) (float_lit (1 # 10)) 20000 10000 (optimizer st) ->
  _step (optimizer st) = global_step st ->
  global_step st < float_int_bound ->
  (max_steps args <= 0 \/
   global_step st
   + Z.of_nat (length todo)
     * (Z.of_nat len_dataloader / gradient_accumulation_steps args)
   <= max_steps args) ->
  match epoch_loop forward_loss args len_dataloader todo st with
  | OK st' =>
      global_step st'
      = global_step st
        + Z.of_nat (length todo)
          * (Z.of_nat len_dataloader / gradient_accumulation_steps args) /\
      batches_processed (trace st')
      = (batches_processed (trace st) + length todo * len_dataloader)%nat /\
      global_step st' < float_int_bound
  | Raise e =>
      e = OverflowError /\
      float_int_bound
      <= global_step st
         + Z.of_nat (length todo)
           * (Z.of_nat len_dataloader / gradient_accumulation_steps args)
  end.
Proof.
  intros Hgas. revert st.
  pose proof (window_ends_seq (gradient_accumulation_steps args)
                len_dataloader Hgas) as Hq.
  assert (0 <= Z.of_nat len_dataloader / gradient_accumulation_steps args)
    by (apply Z.div_pos; lia).
  induction todo as [|e todo IH]; intros st Hsched Hcount Hfits Hcap.
  - cbn. split_and!; try done; lia.
  - pose proof (inner_loop_counts args e (seq 0 len_dataloader) st Hgas
                  Hsched Hcount Hfits) as Hinner.
    rewrite Hq, length_seq in Hinner.
    cbn [epoch_loop length] in *.
    destruct (inner_loop _ _ _ _ _) as [st1|err]; run_binds.
    + destruct Hinner as (Hsched1 & Hcount1 & Hgs1 & Hb1 & Hfits1); [nia|].
      rewrite stop_never by nia.
      specialize (IH st1 Hsched1 Hcount1 Hfits1 ltac:(nia)).
      destruct (epoch_loop _ _ _ _ _) as [st'|e'].
      * destruct IH as (Hgs' & Hb' & Hf'). split_and!; try done; nia.
      * destruct IH as [-> Hover]. split; [reflexivity|nia].
    + destruct Hinner as [-> Hover]; [nia|]. split; [reflexivity|nia].
Qed.
End TrainSchedule.

(** X7: the global step of [train] advances only with the optimizer: at the
    end of every run of the loops the global step, the step counter of the
    [BertSumOptimizer] and the number of [optimizer.step()] calls made are
    the same number. *)
Theorem train_counters_agree :
  forall (F : Type) (ops : PyFloat F) (forward_loss : nat -> nat -> F)
         (model : Model) (args : Args) (train_dataset : list Example)
         (st : TrainState F),
    train_loops forward_loss model args train_dataset = OK st ->
    global_step st = _step (optimizer st) /\
    Z.of_nat (optimizer_steps (trace st)) = global_step st.
Proof.
  intros F ops forward_loss model args train_dataset st Hloops.
  apply train_loops_inv in Hloops as (len_dataloader & epochs & Hloop).
  apply (epoch_loop_counters forward_loss args len_dataloader epochs
           (initial_train_state (train_optimizer model)) st Hloop).
  split; reflexivity.
Qed.

Lemma train_counters_agree_witness :
  exists st,
    train_loops sample_loss bert_abs uncapped_args sample_dataset = OK st /\
    global_step st = 6 /\
    _step (optimizer st) = 6 /\
    optimizer_steps (trace st) = 6%nat.
Proof.
  assert (exists st,
            train_loops sample_loss bert_abs uncapped_args sample_dataset
            = OK st /\ global_step st = 6) as (st & Hrun & Hgs).
  { vm_compute. eexists. split; reflexivity. }
  pose proof (train_counters_agree fexpr fexpr_float sample_loss bert_abs
                uncapped_args sample_dataset st Hrun) as [Hstep Hcalls].
  exists st. split; [exact Hrun|]. split; [exact Hgs|].
  split; [by rewrite <- Hstep|]. apply Nat2Z.inj. by rewrite Hcalls.
Defined.

(** X8: without a cap ([max_steps <= 0]) and with a positive accumulation
    length, [train] runs every epoch to its end: it processes
    [num_train_epochs * len(train_dataloader)] batches and takes
    [len(train_dataloader) // gradient_accumulation_steps * num_train_epochs]
    optimizer steps, the total that the schedule announces; the batches
    left over at the end of an epoch are not carried into the next one.
    When that total is not zero, [train] returns it as its global step.
    This holds for every total that fits a float (below
    [2 ** 1024 - 2 ** 970]); a larger total ends the run in the
    [OverflowError] of the learning rate schedule. *)
Theorem train_uncapped_total :
  forall (F : Type) (ops : PyFloat F) (forward_loss : nat -> nat -> F)
         (model : Model) (args : Args) (train_dataset : list Example),
    let len_dataloader :=
      DataLoader_len (length train_dataset) (train_batch_size args) in
    let t_total :=
      len_dataloader / gradient_accumulation_steps args
      * num_train_epochs args in
    train_dataset <> [] ->
    0 < train_batch_size args ->
    max_steps args <= 0 ->
    0 < gradient_accumulation_steps args ->
    0 <= num_train_epochs args ->
    train_schedule args len_dataloader = OK (t_total, num_train_epochs args) /\
    (t_total < float_int_bound ->
     exists st,
       train_loops forward_loss model args train_dataset = OK st /\
       global_step st = t_total /\
       Z.of_nat (batches_processed (trace st))
         = num_train_epochs args * len_dataloader /\
       (t_total <> 0 ->
        exists average,
          train forward_loss model args train_dataset
          = OK (t_total, average))) /\
    (float_int_bound <= t_total ->
     train_loops forward_loss model args train_dataset = Raise OverflowError /\
     train forward_loss model args train_dataset = Raise OverflowError).
Proof.
  intros F ops forward_loss model args train_dataset len_dataloader t_total
    Hne Hbs Hmax Hgas Hepochs.
  assert (0 <= len_dataloader) as Hlen.
  { unfold len_dataloader, DataLoader_len. apply Z.div_pos; lia. }
  assert (0 <= len_dataloader / gradient_accumulation_steps args) as Hq
    by (apply Z.div_pos; lia).
  assert (train_schedule args len_dataloader
          = OK (t_total, num_train_epochs args)) as Hschedule.
  { unfold train_schedule, py_floordiv.
    assert ((max_steps args >? 0) = false) as -> by lia.
    assert ((gradient_accumulation_steps args =? 0) = false) as -> by lia.
    reflexivity. }
  pose proof float_int_bound_large as Hlarge.
  pose proof (epoch_loop_counts forward_loss args (Z.to_nat len_dataloader)
                (seq 0 (Z.to_nat (num_train_epochs args)))
                (initial_train_state (train_optimizer model)) Hgas
                (proj2 (init_train_optimizer model)) eq_refl
                ltac:(cbn; lia) (or_introl Hmax)) as Hloop.
  rewrite length_seq, !Z2Nat.id in Hloop by lia.
  cbn [initial_train_state global_step trace batches_processed List.filter
       length Nat.add Z.add] in Hloop.
  rewrite <- (train_loops_entered forward_loss model args train_dataset
                t_total (num_train_epochs args)) in Hloop by done.
  split; [exact Hschedule|]. unfold train.
  destruct (train_loops forward_loss model args train_dataset) as [st|e].
  - destruct Hloop as (Hgs & Hb & Hfits).
    assert (global_step st = t_total) as Hst by (unfold t_total; lia).
    split; [|lia]. intros _. exists st. split_and!; [done|done|nia|].
    intros Hnz. run_binds. unfold py_truediv.
    rewrite float_of_int_fits by lia. run_binds.
    assert ((global_step st =? 0) = false) as -> by lia.
    rewrite Hst. eauto.
  - destruct Hloop as [-> Hover]. split; [unfold t_total; lia|done].
Qed.

Lemma train_uncapped_total_witness :
  exists st,
    train_loops sample_loss bert_abs uncapped_args sample_dataset = OK st /\
    global_step st = 6 /\
    batches_processed (trace st) = 20%nat.
Proof.
  pose proof (train_uncapped_total fexpr fexpr_float sample_loss bert_abs
                uncapped_args sample_dataset) as Hthm.
  cbv zeta in Hthm.
  destruct Hthm as (_ & Hfits & _);
    [discriminate|reflexivity|discriminate|reflexivity|discriminate|].
  destruct Hfits as (st & Hloops & Hgs & Hb & _); [reflexivity|].
  exists st. split; [exact Hloops|]. split; [exact Hgs|].
  apply Nat2Z.inj. exact Hb.
Defined.

(** X9: with a cap ([max_steps > 0]) and a positive accumulation length, the
    recomputed number of epochs keeps [train] strictly below the cap: it
    takes [max_steps // (q + 1) * q] optimizer steps, where
    [q = len(train_dataloader) // gradient_accumulation_steps], which is
    less than [max_steps]; the early-stop test never fires.  This holds
    for every number of steps that fits a float (below
    [2 ** 1024 - 2 ** 970]); a larger number ends the loops in the
    [OverflowError] of the learning rate schedule. *)
Theorem train_capped_stays_below :
  forall (F : Type) (ops : PyFloat F) (forward_loss : nat -> nat -> F)
         (model : Model) (args : Args) (train_dataset : list Example),
    let q :=
      DataLoader_len (length train_dataset) (train_batch_size args)
      / gradient_accumulation_steps args in
    let steps_taken := max_steps args / (q + 1) * q in
    train_dataset <> [] ->
    0 < train_batch_size args ->
    0 < max_steps args ->
    0 < gradient_accumulation_steps args ->
    steps_taken < max_steps args /\
    (steps_taken < float_int_bound ->
     exists st,
       train_loops forward_loss model args train_dataset = OK st /\
       global_step st = steps_taken /\
       global_step st < max_steps args) /\
    (float_int_bound <= steps_taken ->
     train_loops forward_loss model args train_dataset = Raise OverflowError).
Proof.
  intros F ops forward_loss model args train_dataset q steps_taken
    Hne Hbs Hmax Hgas.
  set (len_dataloader :=
         DataLoader_len (length train_dataset) (train_batch_size args)) in *.
  assert (0 <= len_dataloader) as Hlen.
  { unfold len_dataloader, DataLoader_len. apply Z.div_pos; lia. }
  assert (0 <= q) as Hq by (apply Z.div_pos; lia).
  set (epochs := max_steps args / (q + 1)) in *.
  assert (0 <= epochs) as Hepochs by (apply Z.div_pos; lia).
  assert (epochs * (q + 1) <= max_steps args) as Hle.
  { rewrite Z.mul_comm. apply Z.mul_div_le. lia. }
  assert (epochs * q < max_steps args) as Hlt by nia.
  assert (train_schedule args len_dataloader = OK (max_steps args, epochs))
    as Hschedule.
  { unfold train_schedule, py_floordiv.
    assert ((max_steps args >? 0) = true) as -> by lia.
    assert ((gradient_accumulation_steps args =? 0) = false) as -> by lia.
    run_binds. fold q.
    assert ((q + 1 =? 0) = false) as -> by lia. reflexivity. }
  pose proof float_int_bound_large as Hlarge.
  pose proof (epoch_loop_counts forward_loss args (Z.to_nat len_dataloader)
                (seq 0 (Z.to_nat epochs))
                (initial_train_state (train_optimizer model)) Hgas
                (proj2 (init_train_optimizer model)) eq_refl
                ltac:(cbn; lia)) as Hloop.
  rewrite length_seq, !Z2Nat.id in Hloop by lia. fold q in Hloop.
  cbn [initial_train_state global_step Z.add] in Hloop.
  specialize (Hloop ltac:(right; lia)).
  rewrite <- (train_loops_entered forward_loss model args train_dataset
                (max_steps args) epochs) in Hloop by done.
  split; [exact Hlt|].
  destruct (train_loops forward_loss model args train_dataset) as [st|e].
  - destruct Hloop as (Hgs & _ & Hfits).
    split; [|unfold steps_taken; lia].
    intros _. exists st. unfold steps_taken. split_and!; [done|lia|lia].
  - destruct Hloop as [-> Hover]. split; [unfold steps_taken; lia|done].
Qed.

(** Ten batches per epoch and three per step: seven epochs of three steps,
    twenty-one steps for a cap of thirty. *)
Lemma train_capped_stays_below_witness :
  exists st,
    train_loops sample_loss bert_abs capped_long_args sample_dataset = OK st /\
    global_step st = 21 /\
    global_step st < 30.
Proof.
  pose proof (train_capped_stays_below fexpr fexpr_float sample_loss bert_abs
                capped_long_args sample_dataset) as Hthm.
  cbv zeta in Hthm.
  destruct Hthm as (_ & Hfits & _);
    [discriminate|reflexivity|reflexivity|reflexivity|].
  destruct Hfits as (st & Hloops & Hgs & Hlt); [reflexivity|].
  exists st. split; [exact Hloops|]. split; [exact Hgs|exact Hlt].
Defined.

(** X10: an accumulation length of zero is not rejected when the arguments
    are read: with or without a cap, the computation of the training
    schedule divides by it and raises [ZeroDivisionError], and [train]
    ends with that error. *)
Theorem train_zero_accumulation :
  forall (F : Type) (ops : PyFloat F) (forward_loss : nat -> nat -> F)
         (model : Model) (args : Args) (train_dataset : list Example),
    train_dataset <> [] ->
    0 < train_batch_size args ->
    gradient_accumulation_steps args = 0 ->
    train_schedule args
      (DataLoader_len (length train_dataset) (train_batch_size args))
      = Raise ZeroDivisionError /\
    train_loops forward_loss model args train_dataset
      = Raise ZeroDivisionError /\
    train forward_loss model args train_dataset = Raise ZeroDivisionError.
Proof.
  intros F ops forward_loss model args train_dataset Hne Hbs Hgas.
  assert (forall len, train_schedule args len = Raise ZeroDivisionError)
    as Hschedule.
  { intros len. unfold train_schedule, py_floordiv. rewrite Hgas.
    by destruct (max_steps args >? 0). }
  assert (train_loops forward_loss model args train_dataset
          = Raise ZeroDivisionError) as Hloops.
  { unfold train_loops. fold (train_batch_size args).
    unfold RandomSampler_init, DataLoader_init.
    assert ((length train_dataset =? 0)%nat = false) as ->.
    { apply Nat.eqb_neq. by destruct train_dataset. }
    assert ((train_batch_size args <=? 0) = false) as -> by lia.
    cbn [mbind result_bind Z.ltb Z.compare]. by rewrite Hschedule. }
  split_and!; [apply Hschedule|exact Hloops|].
  unfold train. by rewrite Hloops.
Qed.

Lemma train_zero_accumulation_witness :
  train_schedule (mkArgs (-1) 0 10 2 4 1 50 true false false) 10
  = Raise ZeroDivisionError /\
  train sample_loss bert_abs (mkArgs (-1) 0 10 2 4 1 50 true false false)
        sample_dataset
  = Raise ZeroDivisionError.
Proof.
  destruct (train_zero_accumulation fexpr fexpr_float sample_loss bert_abs
              (mkArgs (-1) 0 10 2 4 1 50 true false false) sample_dataset)
    as (Hschedule & _ & Htrain); [discriminate|reflexivity|reflexivity|].
  split; [exact Hschedule|exact Htrain].
Defined.

(** ** evaluate: errors, empty runs and repeated runs *)

(** X11: [evaluate] hands [CPU_COUNT - 2] workers and the batch size
    [per_gpu_eval_batch_size * max(1, n_gpu)] to its data loader: on a
    process that may use fewer than two CPUs, or with a batch size that is
    not positive, the constructor of the loader raises [ValueError], and
    [evaluate] ends with that error. *)
Theorem evaluate_rejects_loader :
  forall (F : Type) (ops : PyFloat F)
         (beam : tensor -> tensor -> tensor -> BeamResults F)
         (args : Args) (tokenizer : Tokenizer) (path_to_summaries : string)
         (CPU_COUNT : Z) (eval_dataset : list Example)
         (fs : gmap string string),
    eval_batch_size args <= 0 \/ CPU_COUNT < 2 ->
    DataLoader_init (length eval_dataset) (eval_batch_size args)
      (CPU_COUNT - 2) = Raise ValueError /\
    evaluate beam args tokenizer path_to_summaries CPU_COUNT eval_dataset fs
    = Raise ValueError.
Proof.
  intros F ops beam args tokenizer path CPU_COUNT dataset fs Hbad.
  assert (DataLoader_init (length dataset) (eval_batch_size args)
            (CPU_COUNT - 2) = Raise ValueError) as Hinit.
  { unfold DataLoader_init.
    destruct (eval_batch_size args <=? 0) eqn:Hbs; [reflexivity|].
    by assert ((CPU_COUNT - 2 <? 0) = true) as -> by lia. }
  split; [exact Hinit|].
  unfold evaluate. fold (eval_batch_size args). by rewrite Hinit.
Qed.

Lemma evaluate_rejects_loader_witness :
  DataLoader_init 3 2 (1 - 2) = Raise ValueError /\
  evaluate sample_beam sample_eval_args sample_tokenizer "out" 1
    sample_eval_dataset ∅ = Raise ValueError.
Proof.
  apply (evaluate_rejects_loader fexpr fexpr_float sample_beam
           sample_eval_args sample_tokenizer "out" 1 sample_eval_dataset ∅).
  right. lia.
Defined.

Section EvaluateRuns.
Context {F : Type} `{PyFloat F}.
Variable beam : tensor -> tensor -> tensor -> BeamResults F.

Lemma evaluate_returns args tokenizer path CPU_COUNT (dataset : list Example)
    (fs : gmap string string) :
  beam_well_formed beam ->
  2 <= CPU_COUNT ->
  0 < eval_batch_size args ->
  evaluate beam args tokenizer path CPU_COUNT dataset fs
  = OK (fold_left (write_summary tokenizer path)
          (concat (map (summaries_of beam tokenizer)
                       (batches (eval_batch_size args) dataset)))
          (mkEvalState 0 fs)).
Proof.
  intros Hbeam Hcpu Hbs. unfold evaluate, DataLoader_init.
  fold (eval_batch_size args).
  assert ((eval_batch_size args <=? 0) = false) as -> by lia.
  assert ((CPU_COUNT - 2 <? 0) = false) as -> by lia.
  run_binds. apply (eval_loop_spec beam Hbeam).
Qed.

Lemma eval_loop_nothing_kept tokenizer path (todo : list (list Example))
    (st : EvalState) :
  Forall (fun data => forall x, x ∈ data -> empty_raw x = true) todo ->
  eval_loop beam tokenizer path todo st = OK st.
Proof.
  induction 1 as [|data todo Hdata _ IH]; [reflexivity|].
  cbn [eval_loop]. rewrite collate_returns, (filter_all_dropped data Hdata).
  cbn. exact IH.
Qed.
End EvaluateRuns.

(** X12: running [evaluate] a second time over the files it has written
    changes nothing: the same summaries are written to the same files. *)
Theorem evaluate_twice :
  forall (F : Type) (ops : PyFloat F)
         (beam : tensor -> tensor -> tensor -> BeamResults F)
         (args : Args) (tokenizer : Tokenizer) (path_to_summaries : string)
         (CPU_COUNT : Z) (eval_dataset : list Example)
         (fs : gmap string string),
    2 <= CPU_COUNT ->
    0 < eval_batch_size args ->
    beam_well_formed beam ->
    exists st,
      evaluate beam args tokenizer path_to_summaries CPU_COUNT eval_dataset fs
        = OK st /\
      evaluate beam args tokenizer path_to_summaries CPU_COUNT eval_dataset
        (files st) = OK st.
Proof.
  intros F ops beam args tokenizer path CPU_COUNT dataset fs Hcpu Hbs Hbeam.
  rewrite (evaluate_returns beam) by done.
  set (all := concat (map (summaries_of beam tokenizer)
                        (batches (eval_batch_size args) dataset))).
  destruct (write_summaries_spec tokenizer path all (mkEvalState 0 fs) 0
              eq_refl) as (Hidx1 & Hfiles1 & _).
  cbn zeta in *.
  set (st1 := fold_left (write_summary tokenizer path) all (mkEvalState 0 fs))
    in *.
  exists st1. split; [reflexivity|].
  rewrite (evaluate_returns beam) by done. fold all.
  destruct (write_summaries_spec tokenizer path all (mkEvalState 0 (files st1))
              0 eq_refl) as (Hidx2 & Hfiles2 & Hother2).
  cbn zeta in *.
  set (st2 := fold_left (write_summary tokenizer path) all
                (mkEvalState 0 (files st1))) in *.
  f_equal. destruct st1 as [i1 f1], st2 as [i2 f2]. cbn in *.
  f_equal; [congruence|].
  apply map_eq. intros q.
  destruct (decide (q ∈ map (summary_path path) (seq 0 (length all))))
    as [Hin|Hout].
  - apply list_elem_of_fmap in Hin as (k & -> & [_ Hk]%elem_of_seq).
    destruct (lookup_lt_is_Some_2 all k ltac:(lia)) as [tokens Htokens].
    by rewrite (Hfiles1 k tokens Htokens), (Hfiles2 k tokens Htokens).
  - apply Hother2. intros k Hk ->. apply Hout.
    apply list_elem_of_fmap. exists k. split; [done|].
    apply elem_of_seq. lia.
Qed.

Lemma evaluate_twice_witness :
  exists st,
    evaluate sample_beam sample_eval_args sample_tokenizer "out" 4
      sample_eval_dataset ∅ = OK st /\
    evaluate sample_beam sample_eval_args sample_tokenizer "out" 4
      sample_eval_dataset (files st) = OK st.
Proof.
  apply (evaluate_twice fexpr fexpr_float sample_beam sample_eval_args
           sample_tokenizer "out" 4 sample_eval_dataset ∅).
  - lia.
  - reflexivity.
  - exact sample_beam_well_formed.
Defined.

(** X13: on a dataset without any example that the batch assembler keeps,
    the empty dataset included, [evaluate] writes no file and leaves its
    counter at 0, whatever the beam search returns on the empty batches. *)
Theorem evaluate_nothing_kept :
  forall (F : Type) (ops : PyFloat F)
         (beam : tensor -> tensor -> tensor -> BeamResults F)
         (args : Args) (tokenizer : Tokenizer) (path_to_summaries : string)
         (CPU_COUNT : Z) (eval_dataset : list Example)
         (fs : gmap string string),
    2 <= CPU_COUNT ->
    0 < eval_batch_size args ->
    (forall x, x ∈ eval_dataset -> empty_raw x = true) ->
    evaluate beam args tokenizer path_to_summaries CPU_COUNT eval_dataset fs
    = OK (mkEvalState 0 fs).
Proof.
  intros F ops beam args tokenizer path CPU_COUNT dataset fs Hcpu Hbs Hall.
  unfold evaluate, DataLoader_init. fold (eval_batch_size args).
  assert ((eval_batch_size args <=? 0) = false) as -> by lia.
  assert ((CPU_COUNT - 2 <? 0) = false) as -> by lia.
  run_binds. apply eval_loop_nothing_kept.
  unfold batches. apply Forall_map, Forall_forall. intros j _ x Hx.
  apply Hall. apply elem_of_take in Hx as (i & Hi & _).
  rewrite lookup_drop in Hi. by eapply list_elem_of_lookup_2.
Qed.

Lemma evaluate_nothing_kept_witness :
  evaluate sample_beam sample_eval_args sample_tokenizer "out" 4
    [(""%string, "x"%string); ("a"%string, ""%string);
     (""%string, ""%string)] ∅
  = OK (mkEvalState 0 ∅).
Proof.
  apply (evaluate_nothing_kept fexpr fexpr_float sample_beam sample_eval_args
           sample_tokenizer "out" 4).
  - lia.
  - reflexivity.
  - intros x Hx. repeat (apply elem_of_cons in Hx as [->|Hx]; [reflexivity|]).
    by apply elem_of_nil in Hx.
Defined.

(** ** summarize: the prediction that is kept *)

Lemma fexpr_lt_irreflexive (a : fexpr) : flt a a = false.
Proof.
  cbn. unfold fexpr_lt. destruct (fexpr_value a) as [x|]; [|reflexivity].
  apply negb_false_iff, Qle_bool_iff, Qle_refl.
Qed.

Lemma fexpr_lt_transitive (a b c : fexpr) :
  flt a b = true -> flt b c = true -> flt a c = true.
Proof.
  cbn. unfold fexpr_lt.
  destruct (fexpr_value a) as [x|], (fexpr_value b) as [y|],
    (fexpr_value c) as [z|]; try discriminate.
  rewrite !negb_true_iff. intros Hxy Hyz.
  apply not_true_is_false. intros Hzx%Qle_bool_iff.
  assert (~ (y <= x)%Q) as Hxy' by (rewrite <- Qle_bool_iff; congruence).
  assert (~ (z <= y)%Q) as Hyz' by (rewrite <- Qle_bool_iff; congruence).
  apply Qnot_le_lt in Hxy', Hyz'.
  apply (Qlt_irrefl x).
  eapply Qlt_trans; [exact Hxy'|]. eapply Qlt_le_trans; [exact Hyz'|exact Hzx].
Qed.

Section SummarizeBest.
Context {F : Type} `{PyFloat F}.
Variable beam : tensor -> tensor -> tensor -> BeamResults F.
Hypothesis flt_irreflexive : forall a : F, flt a a = false.
Hypothesis flt_transitive :
  forall a b c : F, flt a b = true -> flt b c = true -> flt a c = true.
Hypothesis beam_ok : beam_well_formed beam.

Lemma argmax_from_best (seen l : list F) best_i best :
  (seen ++ l) !! best_i = Some best ->
  (best_i < length seen)%nat ->
  (forall y, y ∈ seen -> flt best y = false) ->
  exists top,
    (seen ++ l) !! argmax_from best_i best (length seen) l = Some top /\
    forall y, y ∈ seen ++ l -> flt top y = false.
Proof.
  revert seen best_i best.
  induction l as [|x l IH]; intros seen best_i best Hbest Hi Hseen.
  - exists best. rewrite app_nil_r in *. by split.
  - cbn [argmax_from].
    replace (seen ++ x :: l) with ((seen ++ [x]) ++ l) in *
      by (by rewrite <- app_assoc).
    replace (S (length seen)) with (length (seen ++ [x]))
      by (rewrite length_app; cbn; lia).
    destruct (flt best x) eqn:Hlt.
    + apply IH.
      * rewrite <- app_assoc. by apply list_lookup_middle.
      * rewrite length_app. cbn. lia.
      * intros y [Hy|Hy%list_elem_of_singleton]%elem_of_app;
          [|by subst y; apply flt_irreflexive].
        destruct (flt x y) eqn:Hxy; [|reflexivity].
        pose proof (Hseen y Hy) as Hno.
        by rewrite (flt_transitive _ _ _ Hlt Hxy) in Hno.
    + apply IH.
      * exact Hbest.
      * rewrite length_app. cbn. lia.
      * intros y [Hy|Hy%list_elem_of_singleton]%elem_of_app;
          [by apply Hseen|by subst y].
Qed.

Lemma argmax_best (s : list F) :
  s <> [] ->
  exists idx top,
    argmax s = OK idx /\ s !! idx = Some top /\
    forall y, y ∈ s -> flt top y = false.
Proof.
  destruct s as [|x l]; [done|]. intros _.
  destruct (argmax_from_best [x] l 0%nat x) as (top & Htop & Hbest).
  - reflexivity.
  - cbn. lia.
  - intros y ->%list_elem_of_singleton. apply flt_irreflexive.
  - eexists _, top. split; [reflexivity|]. split; [exact Htop|exact Hbest].
Qed.
End SummarizeBest.

(** X14: when the beam search returns, for every row of the source, a
    non-empty list of scores and as many predictions, and the scores are
    compared by a strict order, [summarize] returns one token sequence per
    row, in the order of the rows: a prediction of that row whose score no
    other score of the row exceeds. *)
Theorem summarize_keeps_best :
  forall (F : Type) (ops : PyFloat F)
         (beam : tensor -> tensor -> tensor -> BeamResults F)
         (source token_type_ids mask : tensor),
    (forall a : F, flt a a = false) ->
    (forall a b c : F, flt a b = true -> flt b c = true -> flt a c = true) ->
    beam_well_formed beam ->
    let results := beam source token_type_ids mask in
    exists summaries_tokens,
      summarize beam source token_type_ids mask = OK summaries_tokens /\
      length summaries_tokens = length source /\
      forall b tokens,
        summaries_tokens !! b = Some tokens ->
        exists s p idx top,
          scores results !! b = Some s /\
          predictions results !! b = Some p /\
          s !! idx = Some top /\
          p !! idx = Some tokens /\
          forall y, y ∈ s -> flt top y = false.
Proof.
  intros F ops beam source token_type_ids mask Hirr Htrans Hbeam results.
  destruct (Hbeam source token_type_ids mask) as [Hlen Hall].
  fold results in Hlen, Hall. unfold summarize. fold results.
  set (n := length source) in *.
  pose (R := fun (i idx : nat) =>
               exists s p top,
                 scores results !! i = Some s /\
                 predictions results !! i = Some p /\
                 s !! idx = Some top /\
                 (idx < length p)%nat /\
                 forall y, y ∈ s -> flt top y = false).
  destruct (mapM_result_Forall2
              (fun i => s ← list_get (scores results) i; argmax s) R (seq 0 n))
    as (best & Hbest & HR).
  { apply Forall_forall. intros i [_ Hi]%elem_of_seq.
    destruct (lookup_lt_is_Some_2 (scores results) i) as [s Hs]; [lia|].
    destruct (Forall2_lookup_l _ _ _ _ _ Hall Hs) as (p & Hp & Hne & Hlenp).
    destruct (argmax_best Hirr Htrans s Hne) as (idx & top & Hidx & Htop & Hmax).
    exists idx. unfold list_get. rewrite Hs. run_binds.
    split; [exact Hidx|]. exists s, p, top. split_and!; try done.
    apply lookup_lt_Some in Htop. lia. }
  rewrite Hbest. run_binds.
  pose (R2 := fun (bi : nat * nat) (tokens : list Z) =>
                R (fst bi) (snd bi) /\
                exists p, predictions results !! fst bi = Some p /\
                          p !! snd bi = Some tokens).
  destruct (mapM_result_Forall2
              (fun bi => p ← list_get (predictions results) (fst bi);
                         list_get p (snd bi))
              R2 (zip (seq 0 n) best))
    as (out & Hout & HR2).
  { eapply Forall_impl; [apply (Forall2_zip _ _ _ HR)|].
    intros [i idx] HRi. pose proof HRi as (s & p & top & Hs & Hp & Htop & Hlt & _).
    cbn [fst snd] in *.
    destruct (lookup_lt_is_Some_2 p idx Hlt) as [tokens Htokens].
    exists tokens. unfold list_get. rewrite Hp. run_binds.
    rewrite Htokens. split; [reflexivity|]. split; [exact HRi|]. eauto. }
  exists out. split; [exact Hout|]. split.
  { apply Forall2_length in HR2, HR.
    rewrite <- HR2, length_zip_with, <- HR, length_seq. lia. }
  intros b tokens Hb.
  destruct (Forall2_lookup_r _ _ _ _ _ HR2 Hb)
    as ([i idx] & Hzip & (s & p & top & Hs & Hp & Htop & _ & Hmax)
        & p' & Hp' & Htokens).
  cbn [fst snd] in *.
  apply lookup_zip_with_Some in Hzip as (i' & idx' & [= <- <-] & Hseq & _).
  apply lookup_seq in Hseq as [-> _]. cbn in *.
  assert (p' = p) as -> by congruence.
  exists s, p, idx, top. by split_and!.
Qed.

Lemma summarize_keeps_best_witness :
  exists summaries_tokens,
    summarize sample_beam [[7; 8]; [9; 0]] [] [] = OK summaries_tokens /\
    length summaries_tokens = 2%nat.
Proof.
  destruct (summarize_keeps_best fexpr fexpr_float sample_beam
              [[7; 8]; [9; 0]] [] [] fexpr_lt_irreflexive
              fexpr_lt_transitive sample_beam_well_formed)
    as (out & Hout & Hlen & _).
  exists out. split; [exact Hout|exact Hlen].
Defined.

(** X15: [summarize] does not check what the beam search returns.  On a
    source with at least one row, a result without scores makes it fail
    with [IndexError], and an empty list of scores for the first row makes
    it fail with [ValueError], the error of [max] on an empty sequence. *)
Theorem summarize_malformed_results :
  forall (F : Type) (ops : PyFloat F)
         (beam : tensor -> tensor -> tensor -> BeamResults F)
         (row : list Z) (rows token_type_ids mask : tensor),
    let results := beam (row :: rows) token_type_ids mask in
    (scores results = [] ->
     summarize beam (row :: rows) token_type_ids mask = Raise IndexError) /\
    (forall others,
       scores results = [] :: others ->
       summarize beam (row :: rows) token_type_ids mask = Raise ValueError).
Proof.
  intros F ops beam row rows token_type_ids mask results.
  split; [intros Hscores|intros others Hscores];
    unfold summarize; fold results; cbn [length seq mapM];
    unfold list_get; rewrite Hscores; reflexivity.
Qed.

Lemma summarize_malformed_results_witness :
  summarize (fun _ _ _ => mkBeamResults (F:=fexpr) [] []) [[1; 2]] [] []
  = Raise IndexError.
Proof.
  apply (summarize_malformed_results fexpr fexpr_float
           (fun _ _ _ => mkBeamResults [] []) [1; 2] [] [] []).
  reflexivity.
Defined.

(** ** main: the start-up barrier *)

(** X16: whatever [--local_rank] is, a process of a distributed run meets
    the start-up barrier exactly once (the first process after it has
    loaded the model, every other process before it loads it), and a
    process that is not distributed never calls the barrier; the processes
    that load the model without waiting are the monitoring processes. *)
Theorem main_startup_barrier :
  forall local_rank : Z,
    main_startup local_rank
      = (if local_rank =? -1 then [EvLoadModel]
         else if local_rank =? 0 then [EvLoadModel; EvBarrier]
         else [EvBarrier; EvLoadModel]) /\
    barriers (main_startup local_rank)
      = (if main_is_distributed local_rank then 1 else 0)%nat /\
    main_is_monitoring_process local_rank
      = match main_startup local_rank with
        | EvLoadModel :: _ => true
        | _ => false
        end.
Proof.
  intros local_rank.
  unfold main_startup, main_is_monitoring_process, main_is_distributed,
    main_is_first_process.
  destruct (local_rank =? -1) eqn:Hsingle.
  - assert ((local_rank =? 0) = false) as -> by lia. by split_and!.
  - destruct (local_rank =? 0); by split_and!.
Qed.

(** ** create_evaluation_set: one reference file per item *)

(** X17: [create_evaluation_set] writes one reference file per item of the
    dataset, named after the position of the item, an item without summary
    line included (its file is empty): the file of position [i] holds the
    summary lines of item [i] joined by newlines, two positions never share
    a file, and no other file is touched. *)
Theorem create_evaluation_set_files :
  forall (A : Type) (path_to_formatted_summaries : string)
         (dataset : list (A * list string)) (fs : gmap string string),
    let fs' := create_evaluation_set path_to_formatted_summaries dataset fs in
    (forall i item,
       dataset !! i = Some item ->
       fs' !! original_path path_to_formatted_summaries (Z.of_nat i)
       = Some (join newline (snd item))) /\
    (forall i j,
       original_path path_to_formatted_summaries i
       = original_path path_to_formatted_summaries j -> i = j) /\
    (forall q,
       (forall i, (i < length dataset)%nat ->
                  q <> original_path path_to_formatted_summaries (Z.of_nat i)) ->
       fs' !! q = fs !! q).
Proof.
  intros A path dataset fs fs'. unfold fs', create_evaluation_set.
  destruct (write_originals_spec path dataset 0 fs) as [Hfiles Hother].
  split_and!.
  - intros i item Hi. by apply (Hfiles i item).
  - apply original_path_inj.
  - intros q Hq. apply Hother. intros k Hk. by apply Hq.
Qed.

(** Two items, the second without summary line. *)
Lemma create_evaluation_set_files_witness :
  create_evaluation_set "ref" [(tt, ["a."; "b."]%string); (tt, [])] ∅
    !! "ref/original_1.txt"%string = Some ""%string.
Proof.
  apply (proj1 (create_evaluation_set_files unit "ref"
                  [(tt, ["a."; "b."]%string); (tt, [])] ∅)
           1%nat (tt, [])).
  reflexivity.
Defined.

(** ** train: when monitoring signals are emitted *)

Section TrainMonitoring.
Context {F : Type} `{PyFloat F}.
Variable forward_loss : nat -> nat -> F.

Lemma monitoring_log_inv args (st st' : TrainState F) :
  monitoring args st = OK st' ->
  global_step st' = global_step st /\
  (trace st' = trace st \/
   trace st' = trace st ++ [EvLog (global_step st)] /\
   is_monitoring_process args = true /\
   0 < logging_steps args /\
   global_step st mod logging_steps args = 0).
Proof.
  unfold monitoring, py_mod.
  destruct (is_monitoring_process args && (logging_steps args >? 0)) eqn:Hm;
    [|by intros [= <-]; auto].
  apply andb_true_iff in Hm as [Hmon Hl].
  assert ((logging_steps args =? 0) = false) as -> by lia. run_binds.
  destruct (global_step st mod logging_steps args =? 0) eqn:Hmod;
    [|by intros [= <-]; auto].
  destruct (dict_get _ "encoder"); [|discriminate]. run_binds.
  destruct (dict_get _ "decoder"); [|discriminate]. run_binds.
  intros [= <-]. cbn. split; [reflexivity|]. right. split_and!; try done; lia.
Qed.

Lemma batch_body_logs args epoch step_no (st st' : TrainState F) :
  batch_body forward_loss args epoch step_no st = OK st' ->
  0 <= global_step st ->
  Forall (log_allowed args) (trace st) ->
  0 <= global_step st' /\ Forall (log_allowed args) (trace st').
Proof.
  unfold batch_body.
  destruct (py_mod _ _) as [r|e]; [|discriminate]. run_binds.
  destruct (r =? 0).
  - cbn [optimizer global_step trace tr_loss logging_loss].
    destruct (step (optimizer st)) as [self'|e]; [|discriminate]. run_binds.
    intros [Hgs Htrace]%monitoring_log_inv Hpos Hall.
    cbn [global_step trace] in *. rewrite Hgs. split; [lia|].
    assert (Forall (log_allowed args)
              ((trace st ++ [EvBatch epoch step_no])
               ++ [EvOptimizerStep (global_step st + 1)])) as Hall1.
    { rewrite !Forall_app. split_and!; [done|by repeat constructor..]. }
    destruct Htrace as [-> | (-> & Hmon & Hl & Hmod)]; [exact Hall1|].
    rewrite Forall_app. split; [exact Hall1|].
    repeat constructor; try done. lia.
  - intros [= <-] Hpos Hall. cbn [global_step trace]. split; [done|].
    rewrite Forall_app. split; [done|by repeat constructor].
Qed.

Lemma inner_loop_logs args epoch (todo : list nat) (st st' : TrainState F) :
  inner_loop forward_loss args epoch todo st = OK st' ->
  0 <= global_step st ->
  Forall (log_allowed args) (trace st) ->
  0 <= global_step st' /\ Forall (log_allowed args) (trace st').
Proof.
  revert st. induction todo as [|s todo IH]; intros st; cbn [inner_loop].
  - by intros [= <-].
  - destruct (batch_body _ _ _ _ _) as [st1|e] eqn:Hbody; [|discriminate].
    run_binds. intros Hloop Hpos Hall.
    destruct (batch_body_logs _ _ _ _ _ Hbody Hpos Hall) as [Hpos1 Hall1].
    destruct (stop args st1); [by injection Hloop as <-|by apply (IH st1)].
Qed.

Lemma epoch_loop_logs args (len_dataloader : nat) (todo : list nat)
    (st st' : TrainState F) :
  epoch_loop forward_loss args len_dataloader todo st = OK st' ->
  0 <= global_step st ->
  Forall (log_allowed args) (trace st) ->
  0 <= global_step st' /\ Forall (log_allowed args) (trace st').
Proof.
  revert st. induction todo as [|e todo IH]; intros st; cbn [epoch_loop].
  - by intros [= <-].
  - destruct (inner_loop _ _ _ _ _) as [st1|err] eqn:Hinner; [|discriminate].
    run_binds. intros Hloop Hpos Hall.
    destruct (inner_loop_logs _ _ _ _ _ Hinner Hpos Hall) as [Hpos1 Hall1].
    destruct (stop args st1); [by injection Hloop as <-|by apply (IH st1)].
Qed.
End TrainMonitoring.

(** X18: in every run of the loops of [train], monitoring signals are
    emitted by the monitoring process only and only when [logging_steps] is
    positive, each time at a global step that is positive and a multiple of
    [logging_steps]; a process that is not the monitoring process, or a run
    with [logging_steps <= 0], emits none. *)
Theorem train_logs_on_schedule :
  forall (F : Type) (ops : PyFloat F) (forward_loss : nat -> nat -> F)
         (model : Model) (args : Args) (train_dataset : list Example)
         (st : TrainState F) (g : Z),
    train_loops forward_loss model args train_dataset = OK st ->
    EvLog g ∈ trace st ->
    is_monitoring_process args = true /\
    0 < logging_steps args /\
    0 < g /\
    g mod logging_steps args = 0.
Proof.
  intros F ops forward_loss model args train_dataset st g Hloops Hg.
  apply train_loops_inv in Hloops as (len_dataloader & epochs & Hloop).
  destruct (epoch_loop_logs forward_loss args len_dataloader epochs
              (initial_train_state (train_optimizer model)) st Hloop)
    as [_ Hall]; [cbn; lia|constructor|].
  rewrite Forall_forall in Hall. exact (Hall (EvLog g) Hg).
Qed.

(** Six optimizer steps with signals every other step: the signal of the
    fourth step is in the trace. *)
Lemma train_logs_on_schedule_witness :
  exists st,
    train_loops sample_loss bert_abs logged_args sample_dataset = OK st /\
    EvLog 4 ∈ trace st /\
    4 mod logging_steps logged_args = 0.
Proof.
  assert (exists st,
            train_loops sample_loss bert_abs logged_args sample_dataset
            = OK st /\ In (EvLog 4) (trace st)) as (st & Hrun & Hin).
  { vm_compute. eexists. split; [reflexivity|].
    cbn. repeat first [by left | right]. }
  apply (proj2 (list_elem_of_In _ _)) in Hin.
  exists st. split; [exact Hrun|]. split; [exact Hin|].
  exact (proj2 (proj2 (proj2
           (train_logs_on_schedule fexpr fexpr_float sample_loss bert_abs
              logged_args sample_dataset st 4 Hrun Hin)))).
Defined.
